(** * install_wezterm.py: a shallow embedding and its verified properties

    The script detects the host platform, looks the platform up in a static
    catalog of download URLs, downloads and installs the package, and
    optionally installs fonts and clones a configuration repository.

    The embedding follows the source function by function.  Python values
    that the script handles dynamically (the catalog, [None], strings) are
    values of [pyobj]; exceptions are values of [exn] classified the way
    the script's [except] clauses classify them; everything that touches
    the host (file system, standard streams, network, child processes) is a
    computation of the state-and-exception monad [M] over [World].

    Strings are byte strings: the case conversions and the white-space test
    below are those of Python restricted to ASCII, which is all the script
    compares against.

    The file system is a tree of files and directories without symbolic
    links and without permissions: an operation fails for the reasons the
    tree shows (a missing entry, a file where a directory is needed, a
    directory where a file is needed) and for no other.  The network, the
    child processes, the contents of archives, the name of the temporary
    directory and the answers on standard input belong to the host, and
    every statement below that quantifies over worlds quantifies over all
    their behaviours.

    Printed messages are kept, one entry per [print], without the line
    feeds some of them start with. *)

From Stdlib Require Import ZArith Ascii.
From stdpp Require Import base strings gmap list.

Set Warnings "-register-all".

(** ** Python string methods *)

Module PyStr.

Definition is_upper (c : ascii) : bool :=
  let n := N_of_ascii c in (65 <=? n)%N && (n <=? 90)%N.

Definition is_lower (c : ascii) : bool :=
  let n := N_of_ascii c in (97 <=? n)%N && (n <=? 122)%N.

Definition lower_char (c : ascii) : ascii :=
  if is_upper c then ascii_of_N (N_of_ascii c + 32) else c.

Definition upper_char (c : ascii) : ascii :=
  if is_lower c then ascii_of_N (N_of_ascii c - 32) else c.

Fixpoint map (f : ascii → ascii) (s : string) : string :=
  match s with
  | EmptyString => EmptyString
  | String c r => String (f c) (map f r)
  end.

(** [str.lower()] *)
Definition lower : string → string := map lower_char.

(** [str.capitalize()]: first character upper-cased, the rest lower-cased. *)
Definition capitalize (s : string) : string :=
  match s with
  | EmptyString => EmptyString
  | String c r => String (upper_char c) (lower r)
  end.

(** The characters [str.strip()] removes, within ASCII: tab, line feed,
    vertical tab, form feed, carriage return, the four separators
    0x1c-0x1f, and space. *)
Definition is_space (c : ascii) : bool :=
  let n := N_of_ascii c in
  ((9 <=? n)%N && (n <=? 13)%N) || ((28 <=? n)%N && (n <=? 32)%N).

Fixpoint contains_char (c : ascii) (s : string) : bool :=
  match s with
  | EmptyString => false
  | String d r => if decide (c = d) then true else contains_char c r
  end.

Fixpoint lstrip_with (p : ascii → bool) (s : string) : string :=
  match s with
  | EmptyString => EmptyString
  | String c r => if p c then lstrip_with p r else s
  end.

Definition strip_with (p : ascii → bool) (s : string) : string :=
  String.rev (lstrip_with p (String.rev (lstrip_with p s))).

(** [s.strip()] *)
Definition strip : string → string := strip_with is_space.

(** [s.strip(chars)] *)
Definition strip_chars (chars : string) : string → string :=
  strip_with (λ c, contains_char c chars).

(** [s.split(sep)] for a one-character separator; never the empty list. *)
Fixpoint split (sep : ascii) (s : string) : list string :=
  match s with
  | EmptyString => [EmptyString]
  | String c r =>
      if decide (c = sep) then EmptyString :: split sep r
      else match split sep r with
           | w :: ws => String c w :: ws
           | [] => [String c EmptyString]
           end
  end.

(** [s.split(sep, 1)]: the text before the first separator and, when
    there is a separator, the text after it. *)
Fixpoint split_once (sep : ascii) (s : string) : string * option string :=
  match s with
  | EmptyString => (EmptyString, None)
  | String c r =>
      if decide (c = sep) then (EmptyString, Some r)
      else let '(w, rest) := split_once sep r in (String c w, rest)
  end.

(** [s.endswith(suffix)] *)
Definition endswith (s suffix : string) : bool :=
  String.prefix (String.rev suffix) (String.rev s).

(** [sep.join(parts)] *)
Definition join (sep : string) (parts : list string) : string :=
  String.concat sep parts.

End PyStr.

(** ** Exceptions *)

(** The exception classes the script can meet.  [SystemExit] carries the
    status passed to [sys.exit]. *)
Inductive exn_class :=
  | FileNotFoundError
  | PermissionError
  | IsADirectoryError
  | NotADirectoryError
  | FileExistsError
  | OSError              (* any other OSError; IOError is the same class *)
  | URLError             (* urllib.error.URLError, a subclass of OSError *)
  | ShutilError          (* shutil.Error, a subclass of OSError *)
  | BadZipFile
  | CalledProcessError
  | AttributeError
  | TypeError
  | ValueError
  | EOFError
  | KeyboardInterrupt
  | SystemExit (code : Z).

Record exn := Exn { exn_cls : exn_class; exn_msg : string }.

Global Instance exn_class_eq_dec : EqDecision exn_class.
Proof. solve_decision. Defined.

Global Instance exn_eq_dec : EqDecision exn.
Proof. solve_decision. Defined.

(** [isinstance(e, Exception)]: everything but the two [BaseException]-only
    classes. *)
Definition is_Exception (e : exn) : bool :=
  match exn_cls e with
  | KeyboardInterrupt | SystemExit _ => false
  | _ => true
  end.

(** [isinstance(e, OSError)] *)
Definition is_OSError (e : exn) : bool :=
  match exn_cls e with
  | FileNotFoundError | PermissionError | IsADirectoryError
  | NotADirectoryError | FileExistsError | OSError | URLError
  | ShutilError => true
  | _ => false
  end.

Definition is_KeyboardInterrupt (e : exn) : bool :=
  match exn_cls e with KeyboardInterrupt => true | _ => false end.

(** The result of running a piece of Python: a value or a raised exception. *)
Inductive outcome (A : Type) :=
  | Ret (a : A)
  | Raise (e : exn).
Arguments Ret {A} a.
Arguments Raise {A} e.

(** ** Python objects *)

(** The dynamically typed values of the script: [None], a [str], or a [dict]
    with [str] keys (in the order of the literal; keys are unique). *)
Inductive pyobj :=
  | PyNone
  | PyStr (s : string)
  | PyDict (items : list (string * pyobj)).

Definition opt_to_py (o : option string) : pyobj :=
  match o with Some s => PyStr s | None => PyNone end.

(** Truth value of an object ([if not x]). *)
Definition truthy (v : pyobj) : bool :=
  match v with
  | PyNone => false
  | PyStr s => negb (String.eqb s "")
  | PyDict items => negb (bool_decide (items = []))
  end.

Fixpoint assoc (k : string) (items : list (string * pyobj)) : option pyobj :=
  match items with
  | [] => None
  | (k', v) :: rest => if decide (k = k') then Some v else assoc k rest
  end.

(** [self.get(key, default)] where [key] is [None] or a [str].  Only a
    [dict] has the method; [None] is hashable and is no key of the
    dictionaries at hand. *)
Definition py_get (self : pyobj) (key : option string) (dflt : pyobj)
  : outcome pyobj :=
  match self with
  | PyDict items =>
      match key with
      | Some k => Ret (default dflt (assoc k items))
      | None => Ret dflt
      end
  | PyNone => Raise (Exn AttributeError "'NoneType' object has no attribute 'get'")
  | PyStr _ => Raise (Exn AttributeError "'str' object has no attribute 'get'")
  end.

(** ** The package catalog (lines 13-35) *)

Definition release_base : string :=
  "https://github.com/wezterm/wezterm/releases/download/20240203-110809-5046fc22/".

Definition wezterm_package_urls : pyobj :=
  PyDict [
    ("macos", PyDict [
      ("arm64", PyStr (release_base +:+ "WezTerm-macos-20240203-110809-5046fc22.zip"))
    ]);
    ("Ubuntu", PyDict [
      ("22", PyDict [
        ("amd64", PyStr (release_base +:+ "wezterm-20240203-110809-5046fc22.Ubuntu22.04.deb"));
        ("arm64", PyStr (release_base +:+ "wezterm-20240203-110809-5046fc22.Ubuntu22.04.arm64.deb"))
      ]);
      ("20", PyDict [
        ("amd64", PyStr (release_base +:+ "wezterm-20240203-110809-5046fc22.Ubuntu20.04.deb"))
      ])
    ]);
    ("Debian", PyDict [
      ("12", PyDict [
        ("amd64", PyStr (release_base +:+ "wezterm-20240203-110809-5046fc22.Debian12.deb"));
        ("arm64", PyStr (release_base +:+ "wezterm-20240203-110809-5046fc22.Debian12.arm64.deb"))
      ]);
      ("11", PyDict [
        ("amd64", PyStr (release_base +:+ "wezterm-20240203-110809-5046fc22.Debian11.deb"))
      ])
    ])
  ].

(** ** Paths *)

(** A [pathlib.Path]: the components of an absolute POSIX path. *)
Definition path := list string.

(** [str(p)] *)
Definition path_str (p : path) : string :=
  "/" +:+ PyStr.join "/" p.

(** The components [pathlib] keeps of a string: empty components and single
    dots are dropped, double dots stay. *)
Definition path_parts (s : string) : list string :=
  filter (λ c, c ≠ "" ∧ c ≠ ".") (PyStr.split "/" s).

(** [Path(s).name]: the last component, the empty string when there is none. *)
Definition path_name (s : string) : string :=
  default "" (last (path_parts s)).

(** [p / name] for a [name] that is a single component or empty. *)
Definition path_join (p : path) (name : string) : path :=
  if decide (name = "") then p else p ++ [name].

(** [Path(name).suffix]: from the last dot on, unless that dot starts or
    ends the name. *)
Definition name_stem (name : string) : string :=
  match reverse (PyStr.split "." name) with
  | ext :: (_ :: _) as before =>
      let stem := PyStr.join "." (reverse before) in
      if decide (stem = "" ∨ ext = "") then name else stem
  | _ => name
  end.

(** [p.with_suffix(suffix)]: the suffix of the last component replaced. *)
Definition with_suffix (p : path) (suffix : string) : path :=
  match reverse p with
  | name :: parent => reverse parent ++ [name_stem name +:+ suffix]
  | [] => p
  end.

(** What the operating system makes of a path: double dots resolved
    lexically (the model has no symbolic links). *)
Fixpoint norm_go (stack : list string) (p : path) : path :=
  match p with
  | [] => reverse stack
  | c :: p' =>
      if decide (c = "..") then norm_go (tail stack) p'
      else if decide (c = "" ∨ c = ".") then norm_go stack p'
      else norm_go (c :: stack) p'
  end.

Definition normalize (p : path) : path := norm_go [] p.

(** ** The file system *)

(** A file with its contents or a directory with its entries. *)
Inductive node :=
  | File (data : string)
  | Dir (children : gmap string node).

Definition is_Dir (n : node) : bool :=
  match n with Dir _ => true | File _ => false end.

Definition is_File (n : node) : bool :=
  match n with File _ => true | Dir _ => false end.

Module Fs.

(** The node at a (normalized) path below [n]. *)
Fixpoint lookup_at (p : path) (n : node) : option node :=
  match p with
  | [] => Some n
  | c :: p' =>
      match n with
      | Dir ch => ch !! c ≫= lookup_at p'
      | File _ => None
      end
  end.

(** Rewrites the entry at [p] with [f]; nothing changes when the parent
    of [p] is not an existing directory, and the root is never replaced. *)
Fixpoint update_at (f : option node → option node) (p : path) (n : node)
  : node :=
  match p, n with
  | [], _ => n
  | _, File _ => n
  | [c], Dir ch => Dir (partial_alter f c ch)
  | c :: p', Dir ch => Dir (alter (update_at f p') c ch)
  end.

Definition put_at (p : path) (x : node) : node → node :=
  update_at (λ _, Some x) p.

Definition remove_at (p : path) : node → node :=
  update_at (λ _, None) p.

(** [mkdir -p]: creates the missing directories along [p]; [None] when a
    component exists and is a file. *)
Fixpoint mkdirs_at (p : path) (n : node) : option node :=
  match n with
  | File _ => None
  | Dir ch =>
      match p with
      | [] => Some n
      | c :: p' =>
          n' ← mkdirs_at p' (default (Dir ∅) (ch !! c));
          Some (Dir (<[c := n']> ch))
      end
  end.

(** A file system: the entries of the root directory. *)
Definition tree : Type := gmap string node.

Definition entries (n : node) : tree :=
  match n with Dir ch => ch | File _ => ∅ end.

(** The operations by path, as the operating system resolves it. *)
Definition lookup (p : path) (t : tree) : option node :=
  lookup_at (normalize p) (Dir t).

Definition put (p : path) (x : node) (t : tree) : tree :=
  entries (put_at (normalize p) x (Dir t)).

Definition remove (p : path) (t : tree) : tree :=
  entries (remove_at (normalize p) (Dir t)).

Definition mkdirs (p : path) (t : tree) : option tree :=
  entries <$> mkdirs_at (normalize p) (Dir t).

(** The directory an entry lives in, and what is found there. *)
Definition parent (p : path) : path := removelast (normalize p).

Definition lookup_parent (p : path) (t : tree) : option node :=
  lookup_at (parent p) (Dir t).

(** [os.path.exists], [os.path.isdir], [os.path.isfile] *)
Definition exists_ (p : path) (t : tree) : bool :=
  bool_decide (is_Some (lookup p t)).

Definition isdir (p : path) (t : tree) : bool :=
  match lookup p t with Some (Dir _) => true | _ => false end.

Definition isfile (p : path) (t : tree) : bool :=
  match lookup p t with Some (File _) => true | _ => false end.

(** The names in directory [p] that end in [suffix]: the matches of the
    pattern [*suffix], in the order the directory lists them. *)
Definition glob_suffix (p : path) (suffix : string) (t : tree)
  : list string :=
  match lookup p t with
  | Some (Dir ch) =>
      filter (λ name, PyStr.endswith name suffix = true) (map_to_list ch).*1
  | _ => []
  end.

End Fs.

(** ** The host and the state of a run *)

(** What a download yields: the whole body, or a failure, which may come
    after part of the body has already been written to the local file. *)
Inductive fetch_result :=
  | Fetched (data : string)
  | FetchFailed (e : exn) (partial : option string).

(** What starting a child process yields: its exit status, or the exception
    raised while it was started or awaited. *)
Inductive proc_result :=
  | Exited (status : Z)
  | SpawnFailed (e : exn).

(** The environment of a run, which the script only observes. *)
Record Host := mkHost {
  system : string;                        (* platform.system() *)
  machine : string;                       (* platform.machine() *)
  os_release : outcome (list string);     (* open("/etc/os-release") and readlines() *)
  home : path;                            (* Path.home() *)
  cwd : path;                             (* Path.cwd() *)
  fetch : string → fetch_result;          (* the network, by URL *)
  run_process : list string → Fs.tree → Fs.tree * proc_result;
                                          (* a child process, by argv, acting on the file system *)
  unzip : string → outcome (gmap string node);
                                          (* the top-level members of an archive, by its bytes *)
  mkdtemp : Fs.tree → path;                 (* the name tempfile picks *)
  which : string → option string          (* shutil.which *)
}.

(** The calls that leave the process. *)
Inductive call :=
  | CallUrlretrieve (url : string) (dst : path)
  | CallRun (argv : list string)
  | CallExtract (archive dst : path)
  | CallInput (prompt : string).

Global Instance call_eq_dec : EqDecision call.
Proof. solve_decision. Defined.

Record World := mkWorld {
  host : Host;
  root : Fs.tree;                  (* the file system *)
  stdout : list string;            (* what was printed, one entry per print *)
  stdin : list (outcome string);   (* what each coming input() yields *)
  calls : list call                (* the external calls made so far *)
}.

Definition set_root (r : Fs.tree) (w : World) : World :=
  mkWorld (host w) r (stdout w) (stdin w) (calls w).

Definition add_stdout (s : string) (w : World) : World :=
  mkWorld (host w) (root w) (stdout w ++ [s]) (stdin w) (calls w).

Definition set_stdin (i : list (outcome string)) (w : World) : World :=
  mkWorld (host w) (root w) (stdout w) i (calls w).

Definition add_call (c : call) (w : World) : World :=
  mkWorld (host w) (root w) (stdout w) (stdin w) (calls w ++ [c]).

(** ** The monad of the script *)

Definition M (A : Type) : Type := World → World * outcome A.

Global Instance M_ret : MRet M := λ A a w, (w, Ret a).

Global Instance M_bind : MBind M := λ A B f m w,
  match m w with
  | (w', Ret a) => f a w'
  | (w', Raise e) => (w', Raise e)
  end.

Definition raise {A} (e : exn) : M A := λ w, (w, Raise e).

Definition gets {A} (f : World → A) : M A := λ w, (w, Ret (f w)).

Definition modify (f : World → World) : M unit := λ w, (f w, Ret ()).

(** [try: body  except <classes>: handler]: [handler e] is [None] when no
    [except] clause matches [e]. *)
Definition try_except {A} (body : M A) (handler : exn → option (M A)) : M A :=
  λ w,
    match body w with
    | (w', Ret a) => (w', Ret a)
    | (w', Raise e) =>
        match handler e with
        | Some h => h w'
        | None => (w', Raise e)
        end
    end.

(** [try: body  finally: fin]: [fin] runs on every exit of [body]; what
    [body] returned or raised stands unless [fin] itself raises. *)
Definition try_finally {A} (body : M A) (fin : M unit) : M A :=
  λ w,
    match body w with
    | (w', r) =>
        match fin w' with
        | (w'', Ret _) => (w'', r)
        | (w'', Raise e) => (w'', Raise e)
        end
    end.

(** [except Exception as e: h e] *)
Definition except_Exception {A} (h : exn → M A) (e : exn) : option (M A) :=
  if is_Exception e then Some (h e) else None.

(** ** Built-ins and library calls *)

Definition print (s : string) : M unit := modify (add_stdout s).

Definition sys_exit {A} (code : Z) : M A := raise (Exn (SystemExit code) "").

(** [input(prompt)]: the prompt goes to standard output, the answer comes
    without its line end; end of input raises [EOFError]. *)
Definition input (prompt : string) : M string :=
  modify (add_stdout prompt);;
  modify (add_call (CallInput prompt));;
  i ← gets stdin;
  match i with
  | [] => raise (Exn EOFError "EOF when reading a line")
  | Ret s :: rest => modify (set_stdin rest);; mret s
  | Raise e :: rest => modify (set_stdin rest);; raise e
  end.

(** Opening [p] for writing and writing [data]. *)
Definition write_file (p : path) (data : string) : M unit :=
  r ← gets root;
  match Fs.lookup p r with
  | Some (Dir _) => raise (Exn IsADirectoryError (path_str p))
  | _ =>
      match Fs.lookup_parent p r with
      | Some (Dir _) => modify (set_root (Fs.put p (File data) r))
      | Some (File _) => raise (Exn NotADirectoryError (path_str p))
      | None => raise (Exn FileNotFoundError (path_str p))
      end
  end.

(** [urllib.request.urlretrieve(url, dst)]: the URL is opened first, then
    the local file, then the body is copied. *)
Definition urlretrieve (url : string) (dst : path) : M unit :=
  modify (add_call (CallUrlretrieve url dst));;
  h ← gets host;
  match fetch h url with
  | Fetched data => write_file dst data
  | FetchFailed e None => raise e
  | FetchFailed e (Some data) => write_file dst data;; raise e
  end.

(** [subprocess.run(argv, check=True)] *)
Definition subprocess_run (argv : list string) : M unit :=
  modify (add_call (CallRun argv));;
  h ← gets host;
  r ← gets root;
  let '(r', res) := run_process h argv r in
  modify (set_root r');;
  match res with
  | Exited 0 => mret ()
  | Exited _ => raise (Exn CalledProcessError (PyStr.join " " argv))
  | SpawnFailed e => raise e
  end.

(** [p.exists()] *)
Definition path_exists (p : path) : M bool := gets (λ w, Fs.exists_ p (root w)).

(** The class [os.unlink] raises for a directory: Linux reports [EISDIR],
    which Python turns into [IsADirectoryError]; macOS and the other
    systems report [EPERM] or refuse access, which gives
    [PermissionError]. *)
Definition unlink_directory_error (h : Host) : exn_class :=
  if decide (system h = "Linux") then IsADirectoryError else PermissionError.

(** [p.unlink()] *)
Definition unlink (p : path) : M unit :=
  r ← gets root;
  h ← gets host;
  match Fs.lookup p r with
  | None => raise (Exn FileNotFoundError (path_str p))
  | Some (Dir _) => raise (Exn (unlink_directory_error h) (path_str p))
  | Some (File _) => modify (set_root (Fs.remove p r))
  end.

(** [shutil.rmtree(p)] *)
Definition rmtree (p : path) : M unit :=
  r ← gets root;
  match Fs.lookup p r with
  | None => raise (Exn FileNotFoundError (path_str p))
  | Some (File _) => raise (Exn NotADirectoryError (path_str p))
  | Some (Dir _) =>
      match normalize p with
      | [] => raise (Exn OSError (path_str p))
      | _ => modify (set_root (Fs.remove p r))
      end
  end.

(** [p.mkdir(parents=..., exist_ok=True)] *)
Definition mkdir (p : path) (parents : bool) : M unit :=
  r ← gets root;
  match Fs.lookup p r with
  | Some (Dir _) => mret ()
  | Some (File _) => raise (Exn FileExistsError (path_str p))
  | None =>
      if parents then
        match Fs.mkdirs p r with
        | Some r' => modify (set_root r')
        | None => raise (Exn NotADirectoryError (path_str p))
        end
      else
        match Fs.lookup_parent p r with
        | Some (Dir _) => modify (set_root (Fs.put p (Dir ∅) r))
        | Some (File _) => raise (Exn NotADirectoryError (path_str p))
        | None => raise (Exn FileNotFoundError (path_str p))
        end
  end.

(** [shutil.move(src, dst)]: into [dst] when [dst] is a directory, onto
    [dst] otherwise. *)
Definition shutil_move (src dst : path) : M unit :=
  r ← gets root;
  let real_dst :=
    if Fs.isdir dst r then dst ++ [default "" (last (normalize src))] else dst in
  if Fs.isdir dst r && Fs.exists_ real_dst r then
    raise (Exn ShutilError ("Destination path '" +:+ path_str real_dst +:+ "' already exists"))
  else
    match Fs.lookup src r with
    | None => raise (Exn FileNotFoundError (path_str src))
    | Some x =>
        if bool_decide (normalize src `prefix_of` normalize real_dst) then
          raise (Exn ShutilError "Cannot move a directory into itself")
        else
          match Fs.lookup real_dst r, Fs.lookup_parent real_dst r with
          | Some (File _), _ =>
              if is_Dir x then raise (Exn NotADirectoryError (path_str real_dst))
              else modify (set_root (Fs.put real_dst x (Fs.remove src r)))
          | Some (Dir _), _ => raise (Exn IsADirectoryError (path_str real_dst))
          | None, Some (Dir _) =>
              modify (set_root (Fs.put real_dst x (Fs.remove src r)))
          | None, _ => raise (Exn FileNotFoundError (path_str real_dst))
          end
    end.

(** [with zipfile.ZipFile(archive, 'r') as z: z.extractall(dst)]: the
    archive's top-level members are written into [dst], which is created
    when missing. *)
Definition zip_extractall (archive dst : path) : M unit :=
  modify (add_call (CallExtract archive dst));;
  h ← gets host;
  r ← gets root;
  match Fs.lookup archive r with
  | None => raise (Exn FileNotFoundError (path_str archive))
  | Some (Dir _) => raise (Exn IsADirectoryError (path_str archive))
  | Some (File data) =>
      match unzip h data with
      | Raise e => raise e
      | Ret members =>
          mkdir dst true;;
          r' ← gets root;
          match Fs.lookup dst r' with
          | Some (Dir ch) =>
              modify (set_root (Fs.put dst (Dir (members ∪ ch)) r'))
          | _ => raise (Exn NotADirectoryError (path_str dst))
          end
      end
  end.

(** [with tempfile.TemporaryDirectory() as temp_dir: body temp_dir]: a
    fresh directory that is removed again however [body] ends. *)
Definition with_TemporaryDirectory {A} (body : path → M A) : M A :=
  h ← gets host;
  r ← gets root;
  let t := mkdtemp h r in
  match Fs.lookup t r, Fs.lookup_parent t r with
  | Some _, _ => raise (Exn FileExistsError "No usable temporary file name found")
  | None, Some (Dir _) =>
      modify (set_root (Fs.put t (Dir ∅) r));;
      try_finally (body t)
        (modify (λ w, set_root (Fs.remove t (root w)) w))
  | None, _ => raise (Exn FileNotFoundError "No usable temporary directory found")
  end.

Definition of_outcome {A} (o : outcome A) : M A := λ w, (w, o).

(** [pass] *)
Definition skip : M unit := mret ().

(** [for x in l: f x] *)
Fixpoint for_each {A} (l : list A) (f : A → M unit) : M unit :=
  match l with
  | [] => mret ()
  | x :: rest => f x;; for_each rest f
  end.

(** [str(x)] for a value that is [None] or a [str]. *)
Definition fmt_opt (o : option string) : string := default "None" o.

(** ** get_system_info (lines 37-59) *)

(** Lines 41-46: the architecture key of a machine name. *)
Definition arch_key_of (architecture : string) : option string :=
  if bool_decide (architecture ∈ ["x86_64"; "AMD64"]) then Some "amd64"
  else if bool_decide (architecture ∈ ["aarch64"; "arm64"]) then Some "arm64"
  else None.

Definition dquote : string := String "034"%char EmptyString.

(** Line 54, the dictionary comprehension: every line that contains an
    equals sign is stripped and split at its first equals sign; the value
    loses its surrounding double quotes; a later line overrides an earlier
    one with the same key. *)
Fixpoint os_release_dict (lines : list string) (acc : gmap string string)
  : outcome (gmap string string) :=
  match lines with
  | [] => Ret acc
  | line :: rest =>
      if PyStr.contains_char "="%char line then
        match PyStr.split_once "="%char (PyStr.strip line) with
        | (key, Some value) =>
            os_release_dict rest (<[key := PyStr.strip_chars dquote value]> acc)
        | (_, None) =>
            Raise (Exn ValueError "not enough values to unpack (expected 2, got 1)")
        end
      else os_release_dict rest acc
  end.

Definition get_system_info : M (string * option string * option string) :=
  h ← gets host;
  let system := system h in
  let architecture := machine h in
  let arch_key := arch_key_of architecture in
  if decide (system = "Darwin") then mret ("macos", None, arch_key)
  else if decide (system = "Linux") then
    try_except
      (lines ← of_outcome (os_release h);
       os_release ← of_outcome (os_release_dict lines ∅);
       match os_release !! "ID" with
       | None =>
           raise (Exn AttributeError "'NoneType' object has no attribute 'capitalize'")
       | Some id =>
           mret (PyStr.capitalize id,
                 Some (default "" (head (PyStr.split "."%char
                                           (default "" (os_release !! "VERSION_ID"))))),
                 arch_key)
       end)
      (λ e, if is_OSError e then Some (mret ("Linux", None, arch_key)) else None)
  else mret (system, None, arch_key).

(** ** find_download_url (lines 61-69) *)

Definition find_download_url (os_name : string) (os_version arch : option string)
    (packages_dict : pyobj) : M pyobj :=
  print ("正在为您的系统查找软件包: 系统=" +:+ os_name +:+ ", 版本=" +:+ fmt_opt os_version
         +:+ ", 架构=" +:+ fmt_opt arch);;
  if decide (os_name = "macos") then
    d ← of_outcome (py_get packages_dict (Some "macos") (PyDict []));
    of_outcome (py_get d arch PyNone)
  else if bool_decide (os_name ∈ ["Ubuntu"; "Debian"]) then
    d ← of_outcome (py_get packages_dict (Some os_name) (PyDict []));
    d' ← of_outcome (py_get d os_version (PyDict []));
    of_outcome (py_get d' arch PyNone)
  else mret PyNone.

(** ** download_and_install (lines 71-109) *)

(** Lines 106-109, the [finally] clause; [download_path] is [None] until
    line 79 has run. *)
Definition remove_download (download_path : option path) : M unit :=
  match download_path with
  | None => skip
  | Some p =>
      there ← path_exists p;
      if (there : bool) then
        print ("清理已下载的临时文件: " +:+ path_str p);;
        unlink p
      else skip
  end.

(** Lines 103-105, the [except Exception] clause. *)
Definition install_failed : exn → option (M bool) :=
  except_Exception (λ e, print ("安装过程中发生错误: " +:+ exn_msg e);; mret false).

(** Lines 88-101: the archive is unpacked in a temporary directory and its
    application bundle moved to /Applications. *)
Definition install_app_bundle (download_path : path) : M unit :=
  print "检测到 .zip 压缩包，将尝试自动解压并移动到 /Applications...";;
  with_TemporaryDirectory (λ temp_dir,
    zip_extractall download_path temp_dir;;
    r ← gets root;
    match Fs.glob_suffix temp_dir ".app" r with
    | [] => raise (Exn FileNotFoundError "在压缩包中未能找到 .app 文件。")
    | name :: _ =>
        let app_path := temp_dir ++ [name] in
        let dest_app_path := ["Applications"; name] in
        there ← path_exists dest_app_path;
        (if (there : bool) then
           print ("发现已存在的应用，将先进行移除: " +:+ path_str dest_app_path);;
           subprocess_run ["sudo"; "rm"; "-rf"; path_str dest_app_path]
         else skip);;
        print ("正在移动 " +:+ name +:+ " 到 " +:+ path_str dest_app_path +:+ "...");;
        subprocess_run ["sudo"; "mv"; path_str app_path; path_str dest_app_path];;
        print "应用程序安装成功！"
    end).

(** Lines 78-102, the body of the [try], once [Path(url)] has been built. *)
Definition download_then_install (url file_name : string) (download_path : path)
  : M bool :=
  print ("准备下载: " +:+ file_name);;
  urlretrieve url download_path;;
  print ("下载成功！文件已保存为: " +:+ path_str download_path);;
  h ← gets host;
  (if PyStr.endswith file_name ".deb" then
     print "检测到 .deb 软件包，将尝试使用 apt-get 进行安装...";;
     subprocess_run ["sudo"; "apt-get"; "install"; "-y"; "./" +:+ file_name];;
     print ("软件包 '" +:+ file_name +:+ "' 安装成功！")
   else if PyStr.endswith file_name ".zip" && bool_decide (system h = "Darwin") then
     install_app_bundle download_path
   else skip);;
  mret true.

(** Lines 78-79: where the artifact of [url] is saved, in the working
    directory under the last component of the URL. *)
Definition download_path_of (h : Host) (url : string) : path :=
  path_join (cwd h) (path_name url).

Definition download_and_install (url : pyobj) : M bool :=
  if negb (truthy url) then
    print "错误：未提供有效的下载链接。";;
    mret false
  else
    match url with
    | PyStr u =>
        h ← gets host;
        let file_name := path_name u in
        let download_path := download_path_of h u in
        try_finally
          (try_except (download_then_install u file_name download_path) install_failed)
          (remove_download (Some download_path))
    | _ =>
        (* Path(url) rejects what is not a string *)
        try_finally
          (try_except
             (raise (Exn TypeError "expected str, bytes or os.PathLike object"))
             install_failed)
          (remove_download None)
    end.

(** ** apply_wezterm_configuration (lines 111-209) *)

Definition jetbrains_url : string :=
  "https://github.com/ryanoasis/nerd-fonts/releases/download/v3.4.0/JetBrainsMono.zip".

Definition fandol_urls : list string := [
  "https://mirrors.ctan.org/fonts/fandol/FandolBraille-Display.otf";
  "https://mirrors.ctan.org/fonts/fandol/FandolBraille-Regular.otf";
  "https://mirrors.ctan.org/fonts/fandol/FandolFang-Regular.otf";
  "https://mirrors.ctan.org/fonts/fandol/FandolHei-Bold.otf";
  "https://mirrors.ctan.org/fonts/fandol/FandolHei-Regular.otf";
  "https://mirrors.ctan.org/fonts/fandol/FandolKai-Regular.otf";
  "https://mirrors.ctan.org/fonts/fandol/FandolSong-Bold.otf";
  "https://mirrors.ctan.org/fonts/fandol/FandolSong-Regular.otf"
].

Definition repo_url : string := "https://github.com/lyxichigoichie/wezterm-config.git".

(** Lines 137-181, the body of the first [try]: both font families. *)
Definition install_fonts (font_dir download_dir : path) : M unit :=
  print "正在下载 JetBrainsMono Nerd Font...";;
  let jetbrains_zip_path := download_dir ++ ["JetBrainsMono.zip"] in
  urlretrieve jetbrains_url jetbrains_zip_path;;
  let extract_dir := download_dir ++ ["JetBrainsMono"] in
  zip_extractall jetbrains_zip_path extract_dir;;
  print "正在安装 JetBrainsMono 字体...";;
  r ← gets root;
  for_each (Fs.glob_suffix extract_dir ".ttf" r)
    (λ font_file, shutil_move (extract_dir ++ [font_file]) font_dir);;
  print "JetBrainsMono 字体安装成功。";;
  rmtree extract_dir;;
  unlink jetbrains_zip_path;;
  print "正在下载 Fandol 中文字体...";;
  let fandol_dir := download_dir ++ ["Fando"] in
  mkdir fandol_dir false;;
  for_each fandol_urls
    (λ url,
       let filename := path_join fandol_dir (path_name url) in
       print ("  - 下载 " +:+ path_name url);;
       urlretrieve url filename);;
  print "正在安装 Fandol 字体...";;
  r' ← gets root;
  for_each (Fs.glob_suffix fandol_dir ".otf" r')
    (λ font_file, shutil_move (fandol_dir ++ [font_file]) font_dir);;
  print "Fandol 字体安装成功。";;
  rmtree fandol_dir.

(** Lines 183-184 *)
Definition fonts_failed : exn → option (M unit) :=
  except_Exception (λ e, print ("字体安装过程中发生错误: " +:+ exn_msg e)).

(** Lines 117-125: the font directory of the host, [None] on a host that is
    neither Linux nor macOS. *)
Definition resolve_font_dir : M (option path) :=
  h ← gets host;
  if decide (system h = "Linux") then
    mret (Some (home h ++ [".local"; "share"; "fonts"]))
  else if decide (system h = "Darwin") then
    mret (Some (home h ++ ["Library"; "Fonts"]))
  else
    print ("不支持的操作系统 '" +:+ system h +:+ "'，跳过字体安装。");;
    mret None.

(** Lines 117-134: the directories of the font phase, created when
    missing; [None] on a host without a font directory. *)
Definition font_setup : M (option (path * path)) :=
  font_dir ← resolve_font_dir;
  match font_dir with
  | None => mret None
  | Some font_dir =>
      h ← gets host;
      print ("字体将安装到: " +:+ path_str font_dir);;
      mkdir font_dir true;;
      let download_dir := home h ++ ["Downloads"; "wezterm"] in
      mkdir download_dir true;;
      print ("下载目录: " +:+ path_str download_dir);;
      mret (Some (font_dir, download_dir))
  end.

(** Lines 117-184: the font phase. *)
Definition font_phase : M unit :=
  dirs ← font_setup;
  match dirs with
  | None => skip
  | Some (font_dir, download_dir) =>
      try_except (install_fonts font_dir download_dir) fonts_failed
  end.

(** Lines 193-202, the body of the second [try]: an existing configuration
    is moved to its backup, then the repository is cloned. *)
Definition backup_and_clone (config_dir : path) : M unit :=
  there ← path_exists config_dir;
  (if (there : bool) then
     print ("警告: 发现已存在的配置目录 '" +:+ path_str config_dir +:+ "'。");;
     let backup_dir := with_suffix config_dir ".bak" in
     old ← path_exists backup_dir;
     (if (old : bool) then rmtree backup_dir else skip);;
     shutil_move config_dir backup_dir;;
     print ("已将其备份到 '" +:+ path_str backup_dir +:+ "'。")
   else skip);;
  subprocess_run ["git"; "clone"; repo_url; path_str config_dir];;
  print "配置文件克隆成功！".

(** Lines 203-204 *)
Definition clone_failed : exn → option (M unit) :=
  except_Exception (λ e, print ("克隆配置文件时发生错误: " +:+ exn_msg e)).

(** Lines 186-206: the configuration phase. *)
Definition clone_phase : M unit :=
  h ← gets host;
  if bool_decide (is_Some (which h "git")) then
    print "正在克隆 wezterm-config 配置文件...";;
    let config_dir := home h ++ [".config"; "wezterm"] in
    try_except (backup_and_clone config_dir) clone_failed
  else
    print "警告: 未找到 'git' 命令，跳过配置文件克隆。".

Definition config_banner : string := "--- 开始配置 WezTerm ---".

Definition apply_wezterm_configuration : M unit :=
  print config_banner;;
  font_phase;;
  clone_phase;;
  print "--- WezTerm 配置完成 ---";;
  print "请重启您的 WezTerm 实例以使所有更改生效。".

(** ** The script's top level (lines 211-234) *)

Definition install_prompt : string :=
  "WezTerm 安装成功。是否要继续进行字体和配置文件的自动配置？(y/N): ".

(** Lines 227-232, the body of the last [try]. *)
Definition ask_and_configure : M unit :=
  answer ← input install_prompt;
  let choice := PyStr.lower answer in
  if decide (choice = "y") then apply_wezterm_configuration
  else print "跳过自动配置。脚本执行完毕。".

(** Lines 233-234 *)
Definition prompt_interrupted (e : exn) : option (M unit) :=
  if is_KeyboardInterrupt e then Some (print "操作已取消。跳过自动配置。") else None.

Definition main : M unit :=
  '(os_name, os_version, arch) ← get_system_info;
  h ← gets host;
  if negb (truthy (opt_to_py arch)) then
    print ("错误: 无法识别您的系统架构 (" +:+ machine h +:+ ")。");;
    sys_exit 1
  else
    url ← find_download_url os_name os_version arch wezterm_package_urls;
    if negb (truthy url) then
      print "抱歉，在列表中没有找到适合您系统的 WezTerm 软件包。";;
      sys_exit 1
    else
      install_successful ← download_and_install url;
      if (install_successful : bool) then
        try_except ask_and_configure prompt_interrupted
      else skip.

(** The status the process ends with: zero when the script runs to its
    end, the argument of [sys.exit] when that was called, 130 after an
    interrupt nobody caught, and 1 after any other uncaught exception. *)
Definition exit_status {A} (r : outcome A) : Z :=
  match r with
  | Ret _ => 0
  | Raise e =>
      match exn_cls e with
      | SystemExit code => code
      | KeyboardInterrupt => 130
      | _ => 1
      end
  end.

(** Running the script in a world: the final world and the exit status. *)
Definition run_script (w : World) : World * Z :=
  let '(w', r) := main w in (w', exit_status r).

(** * Properties *)

(** ** The file-system model *)

Section FsFacts.
Implicit Types (p q d : path) (n : node) (f : option node → option node).

Lemma lookup_at_app p q n :
  Fs.lookup_at (p ++ q) n = Fs.lookup_at p n ≫= Fs.lookup_at q.
Proof.
  revert n. induction p as [|c p IH]; intros n; simpl; [done|].
  destruct n as [|ch]; [done|].
  destruct (ch !! c) as [n1|]; simpl; [apply IH|done].
Qed.

Lemma update_at_cons2 f c c' q ch :
  Fs.update_at f (c :: c' :: q) (Dir ch)
  = Dir (alter (Fs.update_at f (c' :: q)) c ch).
Proof. reflexivity. Qed.

Lemma update_at_snoc_cons f c d b ch :
  Fs.update_at f (c :: d ++ [b]) (Dir ch)
  = Dir (alter (Fs.update_at f (d ++ [b])) c ch).
Proof. destruct d; reflexivity. Qed.

(** Updating an entry of an existing directory rewrites that entry. *)
Lemma lookup_at_update_parent f d b n ch :
  Fs.lookup_at d n = Some (Dir ch) →
  Fs.lookup_at d (Fs.update_at f (d ++ [b]) n) = Some (Dir (partial_alter f b ch)).
Proof.
  revert n. induction d as [|c d IH]; intros n Hd; simpl in Hd.
  - by simplify_eq.
  - destruct n as [|ch0]; [done|].
    destruct (ch0 !! c) as [n1|] eqn:Hc; [|done]. simpl in Hd.
    change ((c :: d) ++ [b]) with (c :: d ++ [b]).
    rewrite update_at_snoc_cons.
    change (Fs.lookup_at (c :: d) (Dir ?m)) with (m !! c ≫= Fs.lookup_at d).
    rewrite lookup_alter_eq, Hc. simpl. by apply IH.
Qed.

(** Updating below something that is no directory changes nothing. *)
Lemma update_at_no_parent f d b n :
  (∀ ch, Fs.lookup_at d n ≠ Some (Dir ch)) →
  Fs.update_at f (d ++ [b]) n = n.
Proof.
  revert n. induction d as [|c d IH]; intros n Hd; simpl in Hd.
  - destruct n as [|ch]; [done|]. by destruct (Hd ch).
  - destruct n as [|ch0]; [by destruct d|].
    change ((c :: d) ++ [b]) with (c :: d ++ [b]).
    rewrite update_at_snoc_cons. f_equal.
    apply map_eq; intros k. destruct (decide (c = k)) as [<-|]; [|by rewrite lookup_alter_ne].
    rewrite lookup_alter_eq.
    destruct (ch0 !! c) as [n1|] eqn:Hc; simpl in *; [|done].
    f_equal. by apply IH.
Qed.

Lemma update_at_is_Dir f q ch : is_Dir (Fs.update_at f q (Dir ch)) = true.
Proof. destruct q as [|c [|c' q]]; reflexivity. Qed.

Lemma entries_update_at f q t :
  Dir (Fs.entries (Fs.update_at f q (Dir t))) = Fs.update_at f q (Dir t).
Proof. destruct q as [|c [|c' q]]; reflexivity. Qed.

(** The entry at [d ++ [b]] after an update of that entry. *)
Lemma lookup_at_update_same f d b n :
  Fs.lookup_at (d ++ [b]) (Fs.update_at f (d ++ [b]) n)
  = match Fs.lookup_at d n with
    | Some (Dir ch) => f (ch !! b)
    | _ => None
    end.
Proof.
  destruct (Fs.lookup_at d n) as [[data|ch]|] eqn:Hd.
  - rewrite update_at_no_parent by (intros ch; congruence).
    by rewrite lookup_at_app, Hd.
  - rewrite lookup_at_app, (lookup_at_update_parent f d b n ch Hd). simpl.
    rewrite lookup_partial_alter_eq. by destruct (f (ch !! b)).
  - rewrite update_at_no_parent by (intros ch; congruence).
    by rewrite lookup_at_app, Hd.
Qed.

(** A sibling entry is left alone. *)
Lemma lookup_at_update_sibling f d a b n :
  a ≠ b →
  Fs.lookup_at (d ++ [a]) (Fs.update_at f (d ++ [b]) n) = Fs.lookup_at (d ++ [a]) n.
Proof.
  intros Hab. destruct (Fs.lookup_at d n) as [[data|ch]|] eqn:Hd.
  - by rewrite update_at_no_parent by (intros ch; congruence).
  - rewrite !lookup_at_app, (lookup_at_update_parent f d b n ch Hd), Hd. simpl.
    by rewrite lookup_partial_alter_ne.
  - by rewrite update_at_no_parent by (intros ch; congruence).
Qed.

Lemma snoc_cases q : q = [] ∨ ∃ d b, q = d ++ [b].
Proof.
  destruct (decide (q = [])) as [->|Hq]; [by left|right].
  exists (removelast q), (List.last q ""). by apply app_removelast_last.
Qed.

(** After a removal nothing is found at the path, unless the path is the
    root. *)
Lemma lookup_remove p t :
  normalize p ≠ [] → Fs.lookup p (Fs.remove p t) = None.
Proof.
  unfold Fs.lookup, Fs.remove, Fs.remove_at. intros Hp.
  rewrite entries_update_at.
  destruct (snoc_cases (normalize p)) as [?|(d & b & ->)]; [done|].
  rewrite lookup_at_update_same. by destruct (Fs.lookup_at d (Dir t)) as [[]|].
Qed.

Lemma lookup_root p t : normalize p = [] → Fs.lookup p t = Some (Dir t).
Proof. unfold Fs.lookup. by intros ->. Qed.

End FsFacts.

(** ** Running monadic code *)

Ltac unfold_M :=
  unfold mbind, M_bind, mret, M_ret, gets, modify, raise, print, skip,
    of_outcome, sys_exit in *.

Lemma try_finally_run {A} (body : M A) (fin : M unit) (w : World) :
  (try_finally body fin w).1 = (fin (body w).1).1.
Proof.
  unfold try_finally. destruct (body w) as [w1 r]. simpl.
  by destruct (fin w1) as [w2 [[]|e]].
Qed.

(** ** The Installer's cleanup *)

(** Whatever the state in which the [finally] clause starts, it ends with
    no regular file at the download path. *)
Lemma remove_download_no_file (p : path) (w : World) :
  Fs.isfile p (root (remove_download (Some p) w).1) = false.
Proof.
  unfold remove_download, path_exists, unlink, Fs.isfile, Fs.exists_. unfold_M. simpl.
  case_bool_decide as Hex; simpl.
  - destruct (Fs.lookup p (root w)) as [[data|ch]|] eqn:Hp; simpl; rewrite ?Hp; try done.
    destruct (decide (normalize p = [])) as [Hn|Hn].
    + by rewrite (lookup_root p _ Hn) in Hp.
    + by rewrite lookup_remove.
  - destruct (Fs.lookup p (root w)) as [x|] eqn:Hp; [|done].
    destruct Hex. by eexists.
Qed.

(** The [finally] clause without a download path does nothing. *)
Lemma remove_download_None (w : World) : remove_download None w = (w, Ret ()).
Proof. reflexivity. Qed.

(** ** Sample hosts *)

(** A small file system: a home directory with a working directory and an
    existing configuration with an older backup, a temporary directory and
    the applications directory. *)
Definition sample_tree : Fs.tree :=
  {[ "home" := Dir {[ "u" := Dir {[
       "work" := Dir ∅;
       ".config" := Dir {[
         "wezterm" := Dir {[ "wezterm.lua" := File "current" ]};
         "wezterm.bak" := Dir {[ "wezterm.lua" := File "older" ]} ]} ]} ]};
     "tmp" := Dir ∅;
     "Applications" := Dir ∅ ]}.

Definition ubuntu_os_release : list string :=
  ["NAME=Ubuntu"; "ID=ubuntu"; "VERSION_ID=" +:+ dquote +:+ "22.04" +:+ dquote].

(** A well-behaved host: every download and every child process succeeds;
    archives hold one application bundle. *)
Definition sample_host (system machine : string) (os_release : outcome (list string))
  : Host :=
  mkHost system machine os_release ["home"; "u"] ["home"; "u"; "work"]
    (λ _, Fetched "bytes")
    (λ _ t, (t, Exited 0))
    (λ _, Ret {[ "WezTerm.app" := Dir ∅ ]})
    (λ _, ["tmp"; "tmpa1b2c3"])
    (λ _, Some "/usr/bin/git").

Definition ubuntu_host : Host := sample_host "Linux" "x86_64" (Ret ubuntu_os_release).
Definition macos_host : Host := sample_host "Darwin" "arm64" (Ret []).

(** The same host with a network that fails after part of the body
    arrived, with a package manager that exits with status 100, and with
    archives that hold no application bundle. *)
Definition with_fetch (f : string → fetch_result) (h : Host) : Host :=
  mkHost (system h) (machine h) (os_release h) (home h) (cwd h) f
    (run_process h) (unzip h) (mkdtemp h) (which h).

Definition with_run_process (f : list string → Fs.tree → Fs.tree * proc_result)
    (h : Host) : Host :=
  mkHost (system h) (machine h) (os_release h) (home h) (cwd h) (fetch h)
    f (unzip h) (mkdtemp h) (which h).

Definition with_unzip (f : string → outcome (gmap string node)) (h : Host) : Host :=
  mkHost (system h) (machine h) (os_release h) (home h) (cwd h) (fetch h)
    (run_process h) f (mkdtemp h) (which h).

Definition broken_network : string → fetch_result :=
  λ _, FetchFailed (Exn URLError "connection reset") (Some "part").

Definition failing_process : list string → Fs.tree → Fs.tree * proc_result :=
  λ _ t, (t, Exited 100).

Definition empty_archive : string → outcome (gmap string node) :=
  λ _, Ret ∅.

Definition world_of (h : Host) (answers : list (outcome string)) : World :=
  mkWorld h sample_tree [] answers [].

Definition ubuntu_deb_url : string :=
  release_base +:+ "wezterm-20240203-110809-5046fc22.Ubuntu22.04.deb".

Definition macos_zip_url : string :=
  release_base +:+ "WezTerm-macos-20240203-110809-5046fc22.zip".

(** ** C3: the downloaded artifact never outlives the Installer *)

(** C3. For every URL and every world, hence every behaviour of the
    network, the child processes and the archive: when
    [download_and_install] is over, no regular file is left at the download
    path; and a call that has no download path (an empty or missing URL,
    or an argument that is no string) leaves the file system as it was and
    downloads nothing. *)
Theorem download_and_install_cleans_up (url : pyobj) (w : World) :
  let w' := (download_and_install url w).1 in
  (∀ u, url = PyStr u → u ≠ "" →
     Fs.isfile (download_path_of (host w) u) (root w') = false) ∧
  ((∀ u, url = PyStr u → u = "") → root w' = root w ∧ calls w' = calls w).
Proof.
  split.
  - intros u -> Hu. unfold download_and_install. simpl.
    destruct (String.eqb_spec u "") as [|_]; [done|]. simpl.
    unfold_M. simpl. rewrite try_finally_run. apply remove_download_no_file.
  - intros Hu. unfold download_and_install.
    destruct url as [|u|items]; simpl.
    + done.
    + rewrite (Hu u eq_refl). done.
    + case_bool_decide; [done|]. simpl. done.
Qed.

(** The four ways the Installer can end, each on a concrete host: the
    result, and whether a file is left at the download path. *)
Definition installer_report (h : Host) (u : string) : outcome bool * bool * bool :=
  let w := world_of h [] in
  let '(w', r) := download_and_install (PyStr u) w in
  (r, Fs.isfile (download_path_of h u) (root w'),
   bool_decide (CallUrlretrieve u (download_path_of h u) ∈ calls w')).

Example installer_success :
  installer_report ubuntu_host ubuntu_deb_url = (Ret true, false, true).
Proof. vm_compute. reflexivity. Qed.

Example installer_download_failure :
  installer_report (with_fetch broken_network ubuntu_host) ubuntu_deb_url
  = (Ret false, false, true).
Proof. vm_compute. reflexivity. Qed.

Example installer_subprocess_failure :
  installer_report (with_run_process failing_process ubuntu_host) ubuntu_deb_url
  = (Ret false, false, true).
Proof. vm_compute. reflexivity. Qed.

Example installer_missing_bundle :
  installer_report (with_unzip empty_archive macos_host) macos_zip_url
  = (Ret false, false, true).
Proof. vm_compute. reflexivity. Qed.

Example installer_bundle_installed :
  installer_report macos_host macos_zip_url = (Ret true, false, true).
Proof. vm_compute. reflexivity. Qed.

(** ** C5: a download with no installer for it *)

Lemma lookup_put (p : path) (x : node) (t : Fs.tree) (ch : gmap string node) :
  Fs.lookup_parent p t = Some (Dir ch) → normalize p ≠ [] →
  Fs.lookup p (Fs.put p x t) = Some x.
Proof.
  unfold Fs.lookup, Fs.lookup_parent, Fs.parent, Fs.put, Fs.put_at. intros Hpar Hp.
  rewrite entries_update_at.
  destruct (snoc_cases (normalize p)) as [?|(d & b & Hdb)]; [done|].
  rewrite Hdb in *. rewrite removelast_last in Hpar.
  by rewrite lookup_at_update_same, Hpar.
Qed.

(** What was printed so far has no influence on a download. *)
Lemma urlretrieve_add_stdout (s : string) (u : string) (p : path) (w : World) :
  urlretrieve u p (add_stdout s w)
  = (add_stdout s (urlretrieve u p w).1, (urlretrieve u p w).2).
Proof.
  unfold urlretrieve, write_file. unfold_M. simpl.
  destruct (fetch (host w) u) as [data|e [data|]]; simpl; [| |done];
    destruct (Fs.lookup p (root w)) as [[?|?]|]; simpl; try done;
    destruct (Fs.lookup_parent p (root w)) as [[?|?]|]; simpl; done.
Qed.

(** A download that returns has written a regular file at its target and
    has touched nothing else of the state but the log of calls. *)
Lemma urlretrieve_returns (u : string) (p : path) (w w1 : World) :
  urlretrieve u p w = (w1, Ret ()) →
  host w1 = host w ∧ stdout w1 = stdout w ∧ stdin w1 = stdin w ∧
  calls w1 = calls w ++ [CallUrlretrieve u p] ∧
  Fs.isfile p (root w1) = true.
Proof.
  unfold urlretrieve, write_file, Fs.isfile. unfold_M. simpl.
  destruct (fetch (host w) u) as [data|e [data|]]; simpl.
  - destruct (Fs.lookup p (root w)) as [[?|?]|] eqn:Hp; simpl; try done;
      destruct (Fs.lookup_parent p (root w)) as [[?|ch]|] eqn:Hpar; simpl; try done;
      intros [= <-]; simpl; repeat split;
      (destruct (decide (normalize p = [])) as [Hn|Hn];
       [by rewrite (lookup_root p _ Hn) in Hp | by rewrite (lookup_put p _ _ ch)]).
  - destruct (Fs.lookup p (root w)) as [[?|?]|]; simpl; try done;
      destruct (Fs.lookup_parent p (root w)) as [[?|?]|]; simpl; done.
  - done.
Qed.

(** C5. When the file name ends neither in [.deb] nor, on a Darwin host,
    in [.zip], and the download itself succeeds, the Installer returns
    [True] and the download is the only external call it makes: no package
    manager, no archive extraction, no move. *)
Theorem download_without_install_action (u : string) (w : World) :
  u ≠ "" →
  PyStr.endswith (path_name u) ".deb" = false →
  PyStr.endswith (path_name u) ".zip" && bool_decide (system (host w) = "Darwin") = false →
  (urlretrieve u (download_path_of (host w) u) w).2 = Ret () →
  (download_and_install (PyStr u) w).2 = Ret true ∧
  calls (download_and_install (PyStr u) w).1
  = calls w ++ [CallUrlretrieve u (download_path_of (host w) u)].
Proof.
  intros Hu Hdeb Hzip Hdl.
  set (p := download_path_of (host w) u) in *.
  destruct (urlretrieve u p w) as [w1 r1] eqn:Hrun. simpl in Hdl. subst r1.
  destruct (urlretrieve_returns u p w w1 Hrun) as (Hhost & _ & _ & Hcalls & Hfile).
  unfold download_and_install. simpl.
  destruct (String.eqb_spec u "") as [|_]; [done|]. simpl.
  unfold_M. simpl. fold p.
  unfold try_finally, try_except, download_then_install. unfold_M. simpl.
  rewrite urlretrieve_add_stdout, Hrun. simpl.
  rewrite Hhost, Hdeb, Hzip. simpl.
  unfold remove_download, path_exists, unlink, Fs.exists_. unfold_M. simpl.
  unfold Fs.isfile in Hfile.
  destruct (Fs.lookup p (root w1)) as [[data|?]|] eqn:Hp; try done. simpl.
  rewrite Hp. simpl.
  by rewrite Hcalls.
Qed.

(** A source archive on a Linux host: downloaded, nothing installed. *)
Definition source_tarball_url : string :=
  release_base +:+ "wezterm-20240203-110809-5046fc22-src.tar.gz".

Lemma download_without_install_action_witness :
  (download_and_install (PyStr source_tarball_url) (world_of ubuntu_host [])).2
  = Ret true ∧
  calls (download_and_install (PyStr source_tarball_url) (world_of ubuntu_host [])).1
  = [] ++ [CallUrlretrieve source_tarball_url
             (download_path_of ubuntu_host source_tarball_url)].
Proof.
  apply (download_without_install_action source_tarball_url (world_of ubuntu_host []));
    vm_compute; congruence.
Defined.

(** ** C2: the Resolver against the catalog *)

(** The catalog as the specification reads it: the platforms that have a
    package, with the package's URL.  A macOS entry is keyed by the
    architecture alone, an Ubuntu or Debian entry by the version and then
    the architecture. *)
Inductive in_catalog : string → option string → option string → string → Prop :=
  | cat_macos_arm64 (version : option string) :
      in_catalog "macos" version (Some "arm64")
        (release_base +:+ "WezTerm-macos-20240203-110809-5046fc22.zip")
  | cat_ubuntu22_amd64 :
      in_catalog "Ubuntu" (Some "22") (Some "amd64")
        (release_base +:+ "wezterm-20240203-110809-5046fc22.Ubuntu22.04.deb")
  | cat_ubuntu22_arm64 :
      in_catalog "Ubuntu" (Some "22") (Some "arm64")
        (release_base +:+ "wezterm-20240203-110809-5046fc22.Ubuntu22.04.arm64.deb")
  | cat_ubuntu20_amd64 :
      in_catalog "Ubuntu" (Some "20") (Some "amd64")
        (release_base +:+ "wezterm-20240203-110809-5046fc22.Ubuntu20.04.deb")
  | cat_debian12_amd64 :
      in_catalog "Debian" (Some "12") (Some "amd64")
        (release_base +:+ "wezterm-20240203-110809-5046fc22.Debian12.deb")
  | cat_debian12_arm64 :
      in_catalog "Debian" (Some "12") (Some "arm64")
        (release_base +:+ "wezterm-20240203-110809-5046fc22.Debian12.arm64.deb")
  | cat_debian11_amd64 :
      in_catalog "Debian" (Some "11") (Some "amd64")
        (release_base +:+ "wezterm-20240203-110809-5046fc22.Debian11.deb").

(** The Resolver only prints: its result does not depend on the world. *)
Lemma find_download_url_world (os_name : string) (os_version arch : option string)
    (d : pyobj) (w w' : World) :
  (find_download_url os_name os_version arch d w).2
  = (find_download_url os_name os_version arch d w').2.
Proof.
  unfold find_download_url. unfold_M. simpl.
  repeat (case_decide || case_bool_decide); simpl; try done.
  - destruct (py_get d (Some "macos") (PyDict [])); simpl; [|done].
    by destruct (py_get _ arch PyNone).
  - destruct (py_get d (Some os_name) (PyDict [])); simpl; [|done].
    destruct (py_get _ os_version (PyDict [])); simpl; [|done].
    by destruct (py_get _ arch PyNone).
Qed.

(** The Resolver makes no external call and leaves the file system alone. *)
Lemma find_download_url_calls (os_name : string) (os_version arch : option string)
    (d : pyobj) (w : World) :
  calls (find_download_url os_name os_version arch d w).1 = calls w.
Proof.
  unfold find_download_url. unfold_M. simpl.
  repeat (case_decide || case_bool_decide); simpl; try done.
  - by destruct (py_get d (Some "macos") (PyDict [])).
  - destruct (py_get d (Some os_name) (PyDict [])); simpl; [|done].
    by destruct (py_get _ os_version (PyDict [])).
Qed.

(** Any family but the three of the catalog is not found, whatever the
    dictionary. *)
Lemma find_download_url_other_family (os_name : string)
    (os_version arch : option string) (d : pyobj) (w : World) :
  os_name ∉ ["macos"; "Ubuntu"; "Debian"] →
  (find_download_url os_name os_version arch d w).2 = Ret PyNone.
Proof.
  intros Hfam. unfold find_download_url. unfold_M. simpl.
  destruct (decide (os_name = "macos")) as [->|Hmac]; simpl.
  - destruct Hfam. by left.
  - case_bool_decide as Hlinux; simpl; [|done]. destruct Hfam. by right.
Qed.

Ltac catalog_cases :=
  repeat match goal with
         | |- context [decide (?a = ?b)] => destruct (decide (a = b)); subst; simpl
         end.

(** C2. For every family, version and architecture the Resolver returns
    the URL the catalog has for the triple, and only that one; it returns
    [None] exactly when the catalog has no URL for the triple; and a family
    other than macos, Ubuntu and Debian is never found. *)
Theorem find_download_url_matches_catalog (os_name : string)
    (os_version arch : option string) (w : World) :
  let r := (find_download_url os_name os_version arch wezterm_package_urls w).2 in
  (∀ url, in_catalog os_name os_version arch url ↔ r = Ret (PyStr url)) ∧
  ((∀ url, ¬ in_catalog os_name os_version arch url) ↔ r = Ret PyNone) ∧
  (os_name ∉ ["macos"; "Ubuntu"; "Debian"] → r = Ret PyNone).
Proof.
  intros r. split; [|split].
  3: { apply find_download_url_other_family. }
  all: subst r; unfold find_download_url; unfold_M; simpl.
  all: destruct (decide (os_name = "macos")) as [->|Hmac]; simpl.
  all: try (case_bool_decide as Hfam; simpl).
  all: try (apply list_elem_of_In in Hfam; simpl in Hfam;
            destruct Hfam as [<-|[<-|[]]]; simpl).
  all: destruct os_version as [v|], arch as [a|]; simpl; catalog_cases.
  all: try (intros url; split; [inversion 1; by subst | intros [= <-]; by constructor]).
  all: try (intros url; split; [inversion 1; by subst | done]).
  all: try (split; [done | intros _ url; inversion 1; by subst]).
  all: try (split; [intros Hno; exfalso; eapply Hno; by constructor | done]).
  all: try (split; [done | intros _ url; inversion 1; subst; set_solver]).
  all: intros url; split; [inversion 1; subst; set_solver | done].
Qed.

(** ** The top level, stage by stage *)

(** The Detector only reads. *)
Lemma get_system_info_world (w : World) : (get_system_info w).1 = w.
Proof.
  unfold get_system_info, try_except. unfold_M. simpl.
  repeat case_decide; simpl; try done.
  destruct (os_release (host w)) as [lines|e]; simpl.
  - destruct (os_release_dict lines ∅) as [d|e]; simpl.
    + by destruct (d !! "ID").
    + by destruct (is_OSError e).
  - by destruct (is_OSError e).
Qed.

(** Whatever the Detector returns, its architecture is the key of the
    machine name. *)
Lemma get_system_info_arch (w : World) os_name os_version arch :
  (get_system_info w).2 = Ret (os_name, os_version, arch) →
  arch = arch_key_of (machine (host w)).
Proof.
  unfold get_system_info, try_except. unfold_M. simpl.
  repeat case_decide; simpl; try congruence.
  destruct (os_release (host w)) as [lines|e]; simpl.
  - destruct (os_release_dict lines ∅) as [d|e]; simpl.
    + destruct (d !! "ID"); simpl; congruence.
    + destruct (is_OSError e); simpl; congruence.
  - destruct (is_OSError e); simpl; congruence.
Qed.

Lemma arch_key_of_truthy (m a : string) :
  arch_key_of m = Some a → truthy (PyStr a) = true.
Proof.
  unfold arch_key_of. repeat case_bool_decide; intros [= <-]; reflexivity.
Qed.

(** Detection failure: the Detector returns without an architecture.
    Resolution failure: the Detector returns a platform for which the
    Resolver finds nothing. *)
Definition detection_failure (w : World) : Prop :=
  ∃ os_name os_version, (get_system_info w).2 = Ret (os_name, os_version, None).

Definition resolution_failure (w : World) : Prop :=
  ∃ os_name os_version arch url,
    (get_system_info w).2 = Ret (os_name, os_version, Some arch) ∧
    (find_download_url os_name os_version (Some arch) wezterm_package_urls w).2
    = Ret url ∧
    truthy url = false.

(** The run gets as far as calling the Installer, with [url], in world [w1]. *)
Definition reaches_installer (w : World) (url : pyobj) (w1 : World) : Prop :=
  ∃ os_name os_version arch,
    (get_system_info w).2 = Ret (os_name, os_version, Some arch) ∧
    find_download_url os_name os_version (Some arch) wezterm_package_urls w
    = (w1, Ret url) ∧
    truthy url = true.

Definition arch_error (w : World) : string :=
  "错误: 无法识别您的系统架构 (" +:+ machine (host w) +:+ ")。".

Lemma main_detection_failure (w : World) :
  detection_failure w →
  main w = (add_stdout (arch_error w) w, Raise (Exn (SystemExit 1) "")).
Proof.
  intros (os_name & os_version & Hdet).
  pose proof (get_system_info_world w) as Hw.
  unfold main. unfold_M.
  destruct (get_system_info w) as [w0 r]. simpl in *. by subst.
Qed.

Lemma main_resolution_failure (w : World) :
  resolution_failure w →
  ∃ w', (main w) = (w', Raise (Exn (SystemExit 1) "")) ∧ calls w' = calls w.
Proof.
  intros (os_name & os_version & arch & url & Hdet & Hres & Hurl).
  pose proof (get_system_info_world w) as Hw.
  pose proof (arch_key_of_truthy _ _ (eq_sym (get_system_info_arch _ _ _ _ Hdet))) as Ha.
  unfold main. unfold_M.
  destruct (get_system_info w) as [w0 r]. simpl in Hw, Hdet. subst.
  change (opt_to_py (Some arch)) with (PyStr arch). rewrite Ha. simpl.
  destruct (find_download_url _ _ _ _ w) as [w1 r1] eqn:Hfind. simpl in *. subst.
  rewrite Hurl. simpl. eexists; split; [done|]. simpl.
  change w1 with (w1, Ret url).1. rewrite <-Hfind. apply find_download_url_calls.
Qed.

Lemma main_reaches_installer (w : World) (url : pyobj) (w1 : World) :
  reaches_installer w url w1 →
  main w
  = (install_successful ← download_and_install url;
     if (install_successful : bool)
     then try_except ask_and_configure prompt_interrupted
     else skip) w1.
Proof.
  intros (os_name & os_version & arch & Hdet & Hres & Hurl).
  pose proof (get_system_info_world w) as Hw.
  pose proof (arch_key_of_truthy _ _ (eq_sym (get_system_info_arch _ _ _ _ Hdet))) as Ha.
  unfold main. unfold_M.
  destruct (get_system_info w) as [w0 r]. simpl in Hw, Hdet. subst.
  change (opt_to_py (Some arch)) with (PyStr arch). rewrite Ha. simpl.
  rewrite Hres. simpl. by rewrite Hurl.
Qed.

Lemma main_detector_raises (w : World) (e : exn) :
  (get_system_info w).2 = Raise e → main w = (w, Raise e).
Proof.
  intros Hdet. pose proof (get_system_info_world w) as Hw.
  unfold main. unfold_M.
  destruct (get_system_info w) as [w0 r]. simpl in *. by subst.
Qed.

(** More sample hosts: an architecture the script does not know, and an
    Ubuntu release the catalog does not list. *)
Definition riscv_world : World :=
  world_of (sample_host "Linux" "riscv64" (Ret ubuntu_os_release)) [].

Definition ubuntu18_os_release : list string :=
  ["NAME=Ubuntu"; "ID=ubuntu"; "VERSION_ID=" +:+ dquote +:+ "18.04" +:+ dquote].

Definition ubuntu18_world : World :=
  world_of (sample_host "Linux" "x86_64" (Ret ubuntu18_os_release)) [].

Example riscv_world_detection_failure : detection_failure riscv_world.
Proof. exists "Ubuntu", (Some "22"). vm_compute. reflexivity. Qed.

Example ubuntu18_world_resolution_failure : resolution_failure ubuntu18_world.
Proof.
  exists "Ubuntu", (Some "18"), "amd64", PyNone.
  split; [|split]; vm_compute; reflexivity.
Qed.

(** ** C7: architecture resolution *)

(** The three cases of lines 41-46. *)
Lemma arch_key_of_cases (m : string) :
  ((m = "x86_64" ∨ m = "AMD64") ∧ arch_key_of m = Some "amd64") ∨
  ((m = "aarch64" ∨ m = "arm64") ∧ arch_key_of m = Some "arm64") ∨
  (arch_key_of m = None ∧ m ∉ ["x86_64"; "AMD64"; "aarch64"; "arm64"]).
Proof.
  unfold arch_key_of.
  destruct (decide (m = "x86_64")) as [->|H1]; [left; split; [by left|done]|].
  destruct (decide (m = "AMD64")) as [->|H2]; [left; split; [by right|done]|].
  destruct (decide (m = "aarch64")) as [->|H3]; [right; left; split; [by left|done]|].
  destruct (decide (m = "arm64")) as [->|H4]; [right; left; split; [by right|done]|].
  right; right.
  assert (Hall : m ∉ ["x86_64"; "AMD64"; "aarch64"; "arm64"]).
  { rewrite !not_elem_of_cons. repeat split; try done. apply not_elem_of_nil. }
  split; [|done].
  rewrite !bool_decide_eq_false_2; [done| |];
    rewrite !not_elem_of_cons; repeat split; try done; apply not_elem_of_nil.
Qed.

Lemma arch_key_of_amd64 (m : string) :
  arch_key_of m = Some "amd64" ↔ m = "x86_64" ∨ m = "AMD64".
Proof.
  destruct (arch_key_of_cases m) as [[Hm ->]|[[Hm ->]|[-> Hm]]].
  - done.
  - split; [done|]. intros [->| ->]; by destruct Hm.
  - split; [done|]. intros [->| ->]; destruct Hm; rewrite !elem_of_cons; auto.
Qed.

Lemma arch_key_of_arm64 (m : string) :
  arch_key_of m = Some "arm64" ↔ m = "aarch64" ∨ m = "arm64".
Proof.
  destruct (arch_key_of_cases m) as [[Hm ->]|[[Hm ->]|[-> Hm]]].
  - split; [done|]. intros [->| ->]; by destruct Hm.
  - done.
  - split; [done|]. intros [->| ->]; destruct Hm; rewrite !elem_of_cons; auto.
Qed.

Lemma arch_key_of_None (m : string) :
  arch_key_of m = None ↔ m ∉ ["x86_64"; "AMD64"; "aarch64"; "arm64"].
Proof.
  destruct (arch_key_of_cases m) as [[Hm ->]|[[Hm ->]|[-> Hm]]].
  - split; [done|]. intros Hno. destruct Hno. rewrite !elem_of_cons.
    destruct Hm; auto.
  - split; [done|]. intros Hno. destruct Hno. rewrite !elem_of_cons.
    destruct Hm; auto.
  - done.
Qed.



(** C7. The machine name maps to [amd64] exactly for [x86_64] and [AMD64],
    to [arm64] exactly for [aarch64] and [arm64], and to no key for every
    other name; that key is the architecture the Detector returns; and on a
    machine without a key the script makes no external call, so attempts no
    download, and, once the Detector has returned, ends by [sys.exit(1)]. *)
Theorem architecture_resolution (w : World) :
  let m := machine (host w) in
  (arch_key_of m = Some "amd64" ↔ m = "x86_64" ∨ m = "AMD64") ∧
  (arch_key_of m = Some "arm64" ↔ m = "aarch64" ∨ m = "arm64") ∧
  (arch_key_of m = None ↔ m ∉ ["x86_64"; "AMD64"; "aarch64"; "arm64"]) ∧
  (∀ os_name os_version arch,
     (get_system_info w).2 = Ret (os_name, os_version, arch) → arch = arch_key_of m) ∧
  (m ∉ ["x86_64"; "AMD64"; "aarch64"; "arm64"] →
     calls (main w).1 = calls w ∧
     (∀ os_name os_version arch,
        (get_system_info w).2 = Ret (os_name, os_version, arch) →
        (main w).2 = Raise (Exn (SystemExit 1) "") ∧ (run_script w).2 = 1%Z)).
Proof.
  intros m.
  split; [apply arch_key_of_amd64|].
  split; [apply arch_key_of_arm64|].
  split; [apply arch_key_of_None|].
  split; [intros os_name os_version arch; apply get_system_info_arch|].
  intros Hm. apply arch_key_of_None in Hm.
  destruct (get_system_info w).2 as [[[os_name os_version] arch]|e] eqn:Hdet.
  - pose proof (get_system_info_arch _ _ _ _ Hdet) as Ha. fold m in Ha.
    rewrite Hm in Ha. subst arch.
    assert (Hfail : detection_failure w) by (by exists os_name, os_version).
    unfold run_script. rewrite (main_detection_failure w Hfail). simpl.
    split; [done|]. by intros _ _ _ _.
  - rewrite (main_detector_raises w e Hdet). split; [done|]. by intros.
Qed.

Example unknown_machine_exits :
  calls (main riscv_world).1 = [] ∧ (run_script riscv_world).2 = 1%Z.
Proof. vm_compute. done. Qed.

(** ** C1: the exit statuses of detection and resolution failure *)

Lemma failure_exit_statuses_aux (w : World) :
  (detection_failure w → (run_script w).2 = 1%Z) ∧
  (resolution_failure w → (run_script w).2 = 1%Z).
Proof.
  unfold run_script. split.
  - intros Hfail. by rewrite (main_detection_failure w Hfail).
  - intros Hfail. by destruct (main_resolution_failure w Hfail) as (w' & -> & _).
Qed.

(** C1, as the code has it.  A run that ends in detection failure and a run
    that ends in resolution failure both end with exit status 1: the status
    is non-zero in both cases, and it is the same status. *)
Theorem failure_exit_statuses (w : World) :
  (detection_failure w → (run_script w).2 = 1%Z ∧ (run_script w).2 ≠ 0%Z) ∧
  (resolution_failure w → (run_script w).2 = 1%Z ∧ (run_script w).2 ≠ 0%Z).
Proof.
  destruct (failure_exit_statuses_aux w) as [Hdet Hres].
  split; intros Hfail; [rewrite (Hdet Hfail)|rewrite (Hres Hfail)]; done.
Qed.

(** C1, as stated, fails: a detection failure and a resolution failure
    that end with one and the same exit status. *)
Lemma exit_statuses_coincide :
  ∃ wA wB : World,
    detection_failure wA ∧ resolution_failure wB ∧
    (run_script wA).2 = (run_script wB).2.
Proof.
  exists riscv_world, ubuntu18_world. split; [|split].
  - exact riscv_world_detection_failure.
  - exact ubuntu18_world_resolution_failure.
  - vm_compute. reflexivity.
Qed.

(** ** C4: the OS-release descriptor *)

(** A descriptor that cannot be opened or read, for any reason the
    operating system reports, makes the Detector fall back to the generic
    family. *)
Lemma get_system_info_unreadable (w : World) (e : exn) :
  system (host w) = "Linux" → os_release (host w) = Raise e → is_OSError e = true →
  (get_system_info w).2 = Ret ("Linux", None, arch_key_of (machine (host w))).
Proof.
  intros Hsys Hrel Hos. unfold get_system_info, try_except. unfold_M. simpl.
  rewrite Hsys, Hrel. simpl. by rewrite Hos.
Qed.

(** A descriptor with an [ID] entry makes the Detector return that
    identifier, capitalized, and the major version. *)
Lemma get_system_info_with_id (w : World) (lines : list string)
    (d : gmap string string) (id : string) :
  system (host w) = "Linux" → os_release (host w) = Ret lines →
  os_release_dict lines ∅ = Ret d → d !! "ID" = Some id →
  (get_system_info w).2
  = Ret (PyStr.capitalize id,
         Some (default "" (head (PyStr.split "."%char (default "" (d !! "VERSION_ID"))))),
         arch_key_of (machine (host w))).
Proof.
  intros Hsys Hrel Hdict Hid. unfold get_system_info, try_except. unfold_M. simpl.
  rewrite Hsys, Hrel. simpl. rewrite Hdict. simpl. by rewrite Hid.
Qed.

(** A descriptor without an [ID] entry makes the Detector raise: the
    [AttributeError] of calling [capitalize] on [None] is no [OSError], so
    the [except] clause of line 56 lets it through. *)
Lemma get_system_info_without_id (w : World) (lines : list string)
    (d : gmap string string) :
  system (host w) = "Linux" → os_release (host w) = Ret lines →
  os_release_dict lines ∅ = Ret d → d !! "ID" = None →
  (get_system_info w).2
  = Raise (Exn AttributeError "'NoneType' object has no attribute 'capitalize'").
Proof.
  intros Hsys Hrel Hdict Hid. unfold get_system_info, try_except. unfold_M. simpl.
  rewrite Hsys, Hrel. simpl. rewrite Hdict. simpl. by rewrite Hid.
Qed.

(** A Linux host whose descriptor names the system but carries no [ID]. *)
Definition no_id_os_release : list string :=
  ["NAME=Mystery Linux"; "VERSION_ID=" +:+ dquote +:+ "1.0" +:+ dquote].

Definition no_id_world : World :=
  world_of (sample_host "Linux" "x86_64" (Ret no_id_os_release)) [].

(** C4, at the failing input: on a readable descriptor without an [ID]
    entry the Detector does not return the generic family, it raises, and
    the script ends with a traceback before any download. *)
Theorem get_system_info_no_id_raises :
  (get_system_info no_id_world).2
  = Raise (Exn AttributeError "'NoneType' object has no attribute 'capitalize'") ∧
  (get_system_info no_id_world).2 ≠ Ret ("Linux", None, Some "amd64") ∧
  run_script no_id_world = (no_id_world, 1%Z).
Proof. vm_compute. split; [done|split; [discriminate|done]]. Qed.

(** ** C8: the exit status after an installation failure *)

(** Installation failure: the run reaches the Installer, which returns
    [False]. *)
Definition installation_failure (w : World) : Prop :=
  ∃ url w1 w2,
    reaches_installer w url w1 ∧ download_and_install url w1 = (w2, Ret false).

Lemma pair_of_snd {A B} (x : A * B) (b : B) : x.2 = b → x = (x.1, b).
Proof. destruct x. simpl. by intros ->. Qed.









(** A run on the Ubuntu host, given the network, the child processes and
    the archives: it reaches the Installer with the Ubuntu 22 package. *)
Lemma ubuntu_reaches_installer (w : World) :
  system (host w) = "Linux" → machine (host w) = "x86_64" →
  os_release (host w) = Ret ubuntu_os_release →
  reaches_installer w (PyStr ubuntu_deb_url)
    (find_download_url "Ubuntu" (Some "22") (Some "amd64") wezterm_package_urls w).1.
Proof.
  intros Hsys Hmach Hrel. exists "Ubuntu", (Some "22"), "amd64".
  split; [|split; [|done]].
  - unfold get_system_info, try_except. unfold_M. simpl.
    rewrite Hsys, Hmach, Hrel. reflexivity.
  - apply pair_of_snd. reflexivity.
Qed.

(** The three causes of an installation failure, each on a concrete host,
    and the exit status of the run. *)
Example download_error_exits_zero :
  installation_failure (world_of (with_fetch broken_network ubuntu_host) []) ∧
  (run_script (world_of (with_fetch broken_network ubuntu_host) [])).2 = 0%Z.
Proof.
  split; [|by vm_compute].
  eexists _, _, _. split; [by apply ubuntu_reaches_installer|].
  apply pair_of_snd. by vm_compute.
Qed.

Example installer_subprocess_error_exits_zero :
  installation_failure (world_of (with_run_process failing_process ubuntu_host) []) ∧
  (run_script (world_of (with_run_process failing_process ubuntu_host) [])).2 = 0%Z.
Proof.
  split; [|by vm_compute].
  eexists _, _, _. split; [by apply ubuntu_reaches_installer|].
  apply pair_of_snd. by vm_compute.
Qed.

Example missing_bundle_exits_zero :
  (download_and_install (PyStr macos_zip_url)
     (world_of (with_unzip empty_archive macos_host) [])).2 = Ret false ∧
  (run_script (world_of (with_unzip empty_archive macos_host) [])).2 = 0%Z.
Proof. by vm_compute. Qed.

(** ** What is printed stays printed *)

(** A computation is [monotone] when it only ever appends to standard
    output. *)
Definition monotone {A} (m : M A) : Prop :=
  ∀ w, stdout w `prefix_of` stdout (m w).1.

Section Monotone.
Context {A B : Type}.
Implicit Types (m : M A) (f : A → M B).

Lemma monotone_ret (a : A) : monotone (mret a : M A).
Proof. intros w. done. Qed.

Lemma monotone_raise (e : exn) : monotone (raise e : M A).
Proof. intros w. done. Qed.

Lemma monotone_of_outcome (o : outcome A) : monotone (of_outcome o).
Proof. intros w. done. Qed.

Lemma monotone_gets (g : World → A) : monotone (gets g).
Proof. intros w. done. Qed.

Lemma monotone_bind m f :
  monotone m → (∀ a, monotone (f a)) → monotone (m ≫= f).
Proof.
  intros Hm Hf w. unfold mbind, M_bind.
  specialize (Hm w). destruct (m w) as [w1 [a|e]]; simpl in *; [|done].
  etrans; [exact Hm|apply Hf].
Qed.

Lemma monotone_try_except m (handler : exn → option (M A)) :
  monotone m → (∀ e h, handler e = Some h → monotone h) →
  monotone (try_except m handler).
Proof.
  intros Hm Hh w. unfold try_except.
  specialize (Hm w). destruct (m w) as [w1 [a|e]]; simpl in *; [done|].
  destruct (handler e) as [h|] eqn:He; [|done].
  etrans; [exact Hm|by apply (Hh e h)].
Qed.

Lemma monotone_try_finally m (fin : M unit) :
  monotone m → monotone fin → monotone (try_finally m fin).
Proof.
  intros Hm Hfin w. rewrite try_finally_run. etrans; [apply Hm|apply Hfin].
Qed.

End Monotone.

Lemma monotone_modify (g : World → World) :
  (∀ w, stdout w `prefix_of` stdout (g w)) → monotone (modify g).
Proof. intros Hg w. apply Hg. Qed.

Lemma monotone_print (s : string) : monotone (print s).
Proof. intros w. simpl. by apply prefix_app_r. Qed.

Lemma monotone_skip : monotone skip.
Proof. intros w. done. Qed.

Lemma monotone_for_each {A} (l : list A) (f : A → M unit) :
  (∀ x, monotone (f x)) → monotone (for_each l f).
Proof.
  intros Hf. induction l as [|x l IH]; simpl.
  - apply monotone_ret.
  - apply monotone_bind; [apply Hf|by intros _].
Qed.


Create HintDb mono.

#[local] Hint Resolve monotone_ret monotone_raise monotone_of_outcome monotone_gets
  monotone_print monotone_skip : mono.

(** Decomposes a [monotone] goal along the structure of the code. *)
Ltac mono_step :=
  match goal with
  | |- monotone (mbind _ _) => apply monotone_bind
  | |- monotone (try_except _ _) => apply monotone_try_except
  | |- monotone (try_finally _ _) => apply monotone_try_finally
  | |- monotone (for_each _ _) => apply monotone_for_each
  | |- monotone (modify _) => apply monotone_modify; intros ?; simpl; done
  | |- monotone (if ?b then _ else _) => destruct b
  | |- monotone (match ?x with _ => _ end) => destruct x
  | |- monotone (let '(_, _) := ?x in _) => destruct x
  | |- ∀ _, _ => intros ?
  | |- _ → _ => intros ?
  | |- _ => solve [eauto with mono]
  end.

Ltac mono := repeat mono_step.

Lemma monotone_input (prompt : string) : monotone (input prompt).
Proof.
  unfold input. apply monotone_bind; [|intros _].
  { apply monotone_modify. intros w. simpl. by apply prefix_app_r. }
  mono.
Qed.

Lemma monotone_write_file (p : path) (data : string) : monotone (write_file p data).
Proof. unfold write_file. mono. Qed.

Lemma monotone_urlretrieve (url : string) (dst : path) : monotone (urlretrieve url dst).
Proof. unfold urlretrieve. pose proof monotone_write_file. mono. Qed.

Lemma monotone_subprocess_run (argv : list string) : monotone (subprocess_run argv).
Proof. unfold subprocess_run. mono. Qed.

Lemma monotone_path_exists (p : path) : monotone (path_exists p).
Proof. unfold path_exists. mono. Qed.

Lemma monotone_unlink (p : path) : monotone (unlink p).
Proof. unfold unlink. mono. Qed.

Lemma monotone_rmtree (p : path) : monotone (rmtree p).
Proof. unfold rmtree. mono. Qed.

Lemma monotone_mkdir (p : path) (parents : bool) : monotone (mkdir p parents).
Proof. unfold mkdir. mono. Qed.

Lemma monotone_shutil_move (src dst : path) : monotone (shutil_move src dst).
Proof. unfold shutil_move. mono. Qed.

#[local] Hint Resolve monotone_input monotone_write_file monotone_urlretrieve
  monotone_subprocess_run monotone_path_exists monotone_unlink monotone_rmtree
  monotone_mkdir monotone_shutil_move : mono.

Lemma monotone_zip_extractall (archive dst : path) :
  monotone (zip_extractall archive dst).
Proof. unfold zip_extractall. mono. Qed.

#[local] Hint Resolve monotone_zip_extractall : mono.





(** ** C10: the confirmation prompt *)







(** Answers that do not start the configuration phase, and two that do. *)
Example prompt_answers :
  PyStr.lower "yes" ≠ "y" ∧ PyStr.lower "Y es" ≠ "y" ∧ PyStr.lower "" ≠ "y" ∧
  PyStr.lower " y" ≠ "y" ∧ PyStr.lower "n" ≠ "y" ∧
  PyStr.lower "y" = "y" ∧ PyStr.lower "Y" = "y".
Proof. by vm_compute. Qed.

(** ** Paths of the configuration *)

Definition clean (c : string) : Prop := c ≠ "" ∧ c ≠ "." ∧ c ≠ "..".

Lemma norm_go_clean (stack : list string) (q : path) :
  Forall clean q → norm_go stack q = reverse stack ++ q.
Proof.
  intros Hq. revert stack. induction Hq as [|c q (H1 & H2 & H3) _ IH]; intros stack.
  - simpl. by rewrite app_nil_r.
  - simpl. rewrite decide_False by done.
    rewrite decide_False by (by intros [?|?]).
    rewrite IH, reverse_cons, <-app_assoc. done.
Qed.

Lemma norm_go_app (stack : list string) (p q : path) :
  ∃ stack', norm_go stack p = reverse stack' ∧
            norm_go stack (p ++ q) = norm_go stack' q.
Proof.
  revert stack. induction p as [|c p IH]; intros stack; simpl.
  - by exists stack.
  - repeat case_decide; apply IH.
Qed.

(** Components without dots at the end of a path are kept as they are. *)
Lemma normalize_app_clean (p q : path) :
  Forall clean q → normalize (p ++ q) = normalize p ++ q.
Proof.
  intros Hq. unfold normalize.
  destruct (norm_go_app [] p q) as (stack' & -> & ->).
  by apply norm_go_clean.
Qed.

Lemma with_suffix_snoc (p : path) (name suffix : string) :
  with_suffix (p ++ [name]) suffix = p ++ [name_stem name +:+ suffix].
Proof.
  unfold with_suffix. rewrite reverse_app. simpl. by rewrite reverse_involutive.
Qed.

(** Lines 190 and 195. *)
Definition config_dir_of (h : Host) : path := home h ++ [".config"; "wezterm"].
Definition backup_dir_of (h : Host) : path := with_suffix (config_dir_of h) ".bak".

Lemma backup_dir_of_eq (h : Host) :
  backup_dir_of h = home h ++ [".config"; "wezterm.bak"].
Proof.
  unfold backup_dir_of, config_dir_of.
  change [".config"; "wezterm"] with ([".config"] ++ ["wezterm"]).
  by rewrite app_assoc, with_suffix_snoc, <-app_assoc.
Qed.

Lemma normalize_config_dir (h : Host) :
  normalize (config_dir_of h) = (normalize (home h) ++ [".config"]) ++ ["wezterm"].
Proof.
  unfold config_dir_of. rewrite normalize_app_clean, <-app_assoc; [done|].
  repeat constructor; done.
Qed.

Lemma normalize_backup_dir (h : Host) :
  normalize (backup_dir_of h) = (normalize (home h) ++ [".config"]) ++ ["wezterm.bak"].
Proof.
  rewrite backup_dir_of_eq. rewrite normalize_app_clean, <-app_assoc; [done|].
  repeat constructor; done.
Qed.

(** ** Two entries of one directory *)

Section Siblings.
Variables (p q : path) (d : path) (a b : string).
Hypothesis Hp : normalize p = d ++ [a].
Hypothesis Hq : normalize q = d ++ [b].
Hypothesis Hab : a ≠ b.

Lemma lookup_remove_sibling (t : Fs.tree) :
  Fs.lookup p (Fs.remove q t) = Fs.lookup p t.
Proof.
  unfold Fs.lookup, Fs.remove, Fs.remove_at.
  rewrite entries_update_at, Hp, Hq. by apply lookup_at_update_sibling.
Qed.

Lemma lookup_put_sibling (x : node) (t : Fs.tree) :
  Fs.lookup p (Fs.put q x t) = Fs.lookup p t.
Proof.
  unfold Fs.lookup, Fs.put, Fs.put_at.
  rewrite entries_update_at, Hp, Hq. by apply lookup_at_update_sibling.
Qed.

(** Where an entry exists, its directory exists, also for its siblings and
    also once the entry is removed. *)
Lemma lookup_parent_sibling (x : node) (t : Fs.tree) :
  Fs.lookup p t = Some x → ∃ ch, Fs.lookup_parent q t = Some (Dir ch).
Proof.
  unfold Fs.lookup, Fs.lookup_parent, Fs.parent.
  rewrite Hp, Hq, removelast_last, lookup_at_app.
  destruct (Fs.lookup_at d (Dir t)) as [[data|ch]|]; simpl; [done| |done].
  by exists ch.
Qed.

Lemma lookup_parent_remove (x : node) (t : Fs.tree) :
  Fs.lookup p t = Some x → ∃ ch, Fs.lookup_parent q (Fs.remove p t) = Some (Dir ch).
Proof.
  intros Hx. destruct (lookup_parent_sibling x t Hx) as [ch Hch].
  unfold Fs.lookup_parent, Fs.parent, Fs.remove, Fs.remove_at in *.
  rewrite entries_update_at, Hp. rewrite Hq, removelast_last in *.
  erewrite lookup_at_update_parent by done. by eexists.
Qed.

Lemma not_prefix_sibling : ¬ (normalize p `prefix_of` normalize q).
Proof.
  rewrite Hp, Hq. intros [k Hk].
  assert (Hlen : length k = 0).
  { apply (f_equal length) in Hk. rewrite !length_app in Hk. simpl in Hk. lia. }
  destruct k; [|done]. rewrite app_nil_r in Hk.
  apply app_inj_tail in Hk as [_ Hk]. by destruct Hab.
Qed.

End Siblings.

(** Removing a directory tree that is there. *)
Lemma rmtree_removes (p : path) (ch : gmap string node) (w : World) :
  Fs.lookup p (root w) = Some (Dir ch) → normalize p ≠ [] →
  rmtree p w = (set_root (Fs.remove p (root w)) w, Ret ()).
Proof.
  intros Hp Hn. unfold rmtree. unfold_M. simpl. rewrite Hp.
  by destruct (normalize p).
Qed.

(** Moving an entry onto a free name of the same directory renames it. *)
Lemma shutil_move_renames (src dst d : path) (a b : string) (x : node) (w : World) :
  normalize src = d ++ [a] → normalize dst = d ++ [b] → a ≠ b →
  Fs.lookup src (root w) = Some x → Fs.lookup dst (root w) = None →
  shutil_move src dst w
  = (set_root (Fs.put dst x (Fs.remove src (root w))) w, Ret ()).
Proof.
  intros Hsrc Hdst Hab Hx Hfree.
  destruct (lookup_parent_sibling src dst d a b Hsrc Hdst x (root w) Hx) as [ch Hch].
  unfold shutil_move, Fs.isdir. unfold_M. simpl.
  rewrite Hfree. simpl. rewrite Hx, Hfree, Hch.
  rewrite bool_decide_eq_false_2; [done|].
  by apply (not_prefix_sibling src dst d a b).
Qed.

(** The state after such a rename: the entry is found under its new name,
    and no longer under the old one. *)
Lemma lookup_after_rename (src dst d : path) (a b : string) (x : node) (t : Fs.tree) :
  normalize src = d ++ [a] → normalize dst = d ++ [b] → a ≠ b →
  Fs.lookup src t = Some x →
  Fs.lookup dst (Fs.put dst x (Fs.remove src t)) = Some x ∧
  Fs.lookup src (Fs.put dst x (Fs.remove src t)) = None.
Proof.
  intros Hsrc Hdst Hab Hx. split.
  - destruct (lookup_parent_remove src dst d a b Hsrc Hdst x t Hx) as [ch Hch].
    apply (lookup_put _ _ _ ch Hch). rewrite Hdst. by destruct d.
  - rewrite (lookup_put_sibling src dst d a b Hsrc Hdst Hab).
    apply lookup_remove. rewrite Hsrc. by destruct d.
Qed.

(** ** C6: the backup of an existing configuration *)


(** The command line of the clone (line 201). *)
Definition git_clone_argv (h : Host) : list string :=
  ["git"; "clone"; repo_url; path_str (config_dir_of h)].


Lemma subprocess_run_root (argv : list string) (w : World) :
  root (subprocess_run argv w).1 = (run_process (host w) argv (root w)).1.
Proof.
  unfold subprocess_run. unfold_M. simpl.
  destruct (run_process (host w) argv (root w)) as [t [[| |]|e]]; done.
Qed.

Lemma subprocess_run_then_print_root (argv : list string) (s : string) (w : World) :
  root ((subprocess_run argv;; print s) w).1 = (run_process (host w) argv (root w)).1.
Proof.
  rewrite <-subprocess_run_root. unfold mbind, M_bind.
  by destruct (subprocess_run argv w) as [w1 [[]|e]].
Qed.

Local Arguments rmtree : simpl never.
Local Arguments shutil_move : simpl never.
Local Arguments subprocess_run : simpl never.



Definition current_configuration : node := Dir {[ "wezterm.lua" := File "current" ]}.


(** A source-control client that does clone: it puts a fresh configuration
    at the target path. *)
Definition cloned_configuration : node := Dir {[ "wezterm.lua" := File "cloned" ]}.

Definition cloning_git : list string → Fs.tree → Fs.tree * proc_result :=
  λ argv t,
    match argv with
    | ["git"; "clone"; _; _] =>
        (Fs.put ["home"; "u"; ".config"; "wezterm"] cloned_configuration t, Exited 0)
    | _ => (t, Exited 0)
    end.

(** Two runs of the configuration phase in a row: each run's backup is the
    configuration that run found, and the older backup is gone. *)
Example backup_generations :
  let w0 := world_of (with_run_process cloning_git ubuntu_host) [] in
  let w1 := (clone_phase w0).1 in
  let w2 := (clone_phase w1).1 in
  let cfg := config_dir_of ubuntu_host in
  let bak := backup_dir_of ubuntu_host in
  Fs.lookup bak (root w0) = Some (Dir {[ "wezterm.lua" := File "older" ]}) ∧
  Fs.lookup bak (root w1) = Some current_configuration ∧
  Fs.lookup cfg (root w1) = Some cloned_configuration ∧
  Fs.lookup bak (root w2) = Some cloned_configuration ∧
  Fs.lookup cfg (root w2) = Some cloned_configuration.
Proof. vm_compute. done. Qed.

(** ** C9: faults of the font phase *)













(** On that host the first font download fails, and the clone is still
    run: the configuration phase's command is the last external call. *)
Example clone_after_font_fault :
  let w := world_of (with_fetch broken_network ubuntu_host) [] in
  (apply_wezterm_configuration w).2 = Ret () ∧
  calls (apply_wezterm_configuration w).1
  = [CallUrlretrieve jetbrains_url ["home"; "u"; "Downloads"; "wezterm"; "JetBrainsMono.zip"];
     CallRun (git_clone_argv ubuntu_host)].
Proof. vm_compute. done. Qed.

(** * Further properties of the code *)

(** ** The Detector's reading of the descriptor *)

Lemma contains_char_rev_app (c : ascii) (s1 s2 : string) :
  PyStr.contains_char c (String.rev_app s1 s2)
  = PyStr.contains_char c s1 || PyStr.contains_char c s2.
Proof.
  revert s2. induction s1 as [|d s1 IH]; intros s2; simpl; [done|].
  rewrite IH. simpl. destruct (decide (c = d)); simpl.
  - by rewrite orb_true_r.
  - done.
Qed.

Lemma contains_char_rev (c : ascii) (s : string) :
  PyStr.contains_char c (String.rev s) = PyStr.contains_char c s.
Proof. unfold String.rev. rewrite contains_char_rev_app. simpl. by rewrite orb_false_r. Qed.

Lemma contains_char_lstrip (p : ascii → bool) (c : ascii) (s : string) :
  p c = false → PyStr.contains_char c s = true →
  PyStr.contains_char c (PyStr.lstrip_with p s) = true.
Proof.
  intros Hp. induction s as [|d s IH]; simpl; [done|].
  destruct (decide (c = d)) as [<-|Hcd].
  - rewrite Hp. simpl. by rewrite decide_True.
  - intros Hs. destruct (p d); [by apply IH|]. simpl. by rewrite decide_False.
Qed.

(** Stripping removes no character that is not stripped. *)
Lemma contains_char_strip (p : ascii → bool) (c : ascii) (s : string) :
  p c = false → PyStr.contains_char c s = true →
  PyStr.contains_char c (PyStr.strip_with p s) = true.
Proof.
  intros Hp Hs. unfold PyStr.strip_with.
  rewrite contains_char_rev. apply contains_char_lstrip; [done|].
  rewrite contains_char_rev. by apply contains_char_lstrip.
Qed.

Lemma split_once_found (c : ascii) (s : string) :
  PyStr.contains_char c s = true →
  ∃ k v, PyStr.split_once c s = (k, Some v).
Proof.
  induction s as [|d s IH]; simpl; [done|].
  destruct (decide (c = d)) as [<-|Hcd].
  - rewrite decide_True by done. by eexists _, _.
  - rewrite decide_False by done. intros Hs.
    destruct (IH Hs) as (k & v & ->). by eexists _, _.
Qed.

Lemma os_release_dict_total (lines : list string) (acc : gmap string string) :
  ∃ d, os_release_dict lines acc = Ret d.
Proof.
  revert acc. induction lines as [|line lines IH]; intros acc; simpl; [by eexists|].
  destruct (PyStr.contains_char "=" line) eqn:Heq; [|apply IH].
  destruct (split_once_found "="%char (PyStr.strip line)) as (k & v & ->); [|apply IH].
  by apply contains_char_strip.
Qed.

(** X1. The dictionary comprehension of line 54 never fails to unpack:
    every line it splits contains an equals sign, also after stripping, so
    for every list of lines it yields a dictionary, and a readable
    descriptor never makes the Detector raise [ValueError]. *)
Theorem os_release_dict_never_raises (w : World) (lines : list string) :
  (∃ d, os_release_dict lines ∅ = Ret d) ∧
  (os_release (host w) = Ret lines →
   ∀ msg, (get_system_info w).2 ≠ Raise (Exn ValueError msg)).
Proof.
  destruct (os_release_dict_total lines ∅) as [d Hd]. split; [by exists d|].
  intros Hrel msg. unfold get_system_info, try_except. unfold_M. simpl.
  repeat case_decide; simpl; try done.
  rewrite Hrel. simpl. rewrite Hd. simpl. by destruct (d !! "ID").
Qed.

(** X2. The Detector raises in two cases only, both on Linux: reading the
    descriptor raised something that is no [OSError], which passes through
    unchanged, or the descriptor was read and has no [ID] entry, which
    gives the [AttributeError] of [None.capitalize()]. *)
Theorem get_system_info_raises_iff (w : World) (e : exn) :
  (get_system_info w).2 = Raise e ↔
  system (host w) = "Linux" ∧
  ((os_release (host w) = Raise e ∧ is_OSError e = false) ∨
   (∃ lines d, os_release (host w) = Ret lines ∧ os_release_dict lines ∅ = Ret d ∧
               d !! "ID" = None ∧
               e = Exn AttributeError "'NoneType' object has no attribute 'capitalize'")).
Proof.
  unfold get_system_info, try_except. unfold_M. simpl.
  destruct (decide (system (host w) = "Darwin")) as [Hd|Hd]; simpl.
  { split; [done|]. intros [Hl _]. congruence. }
  destruct (decide (system (host w) = "Linux")) as [Hl|Hl]; simpl.
  2: { split; [done|]. by intros [? _]. }
  destruct (os_release (host w)) as [lines|e0]; simpl.
  - destruct (os_release_dict_total lines ∅) as [d Hdict]. rewrite Hdict. simpl.
    destruct (d !! "ID") as [id|] eqn:Hid; simpl.
    + split; [done|]. intros [_ [[? _]|(l' & d' & [= <-] & Hd' & Hid' & _)]]; [done|].
      rewrite Hdict in Hd'. simplify_eq.
    + split.
      * intros [= <-]. split; [done|]. right. by exists lines, d.
      * by intros [_ [[? _]|(_ & _ & _ & _ & _ & ->)]].
  - destruct (is_OSError e0) eqn:Hos; simpl.
    + split; [done|]. intros [_ [[[= <-] ?]|(? & ? & ? & _)]]; congruence.
    + split.
      * intros [= <-]. split; [done|]. by left.
      * intros [_ [[[= <-] _]|(? & ? & ? & _)]]; done.
Qed.

(** X3. A Linux host whose descriptor cannot be opened or read is
    detected as the generic family without a version; the catalog has no
    such family, so the script then ends in resolution failure: exit status
    1 and no external call. *)
Theorem unreadable_descriptor_ends_unresolved (w : World) (e : exn) (arch : string) :
  system (host w) = "Linux" → os_release (host w) = Raise e → is_OSError e = true →
  arch_key_of (machine (host w)) = Some arch →
  (get_system_info w).2 = Ret ("Linux", None, Some arch) ∧
  resolution_failure w ∧
  (run_script w).2 = 1%Z ∧ calls (main w).1 = calls w.
Proof.
  intros Hsys Hrel Hos Harch.
  assert (Hdet : (get_system_info w).2 = Ret ("Linux", None, Some arch))
    by (by rewrite (get_system_info_unreadable w e Hsys Hrel Hos), Harch).
  assert (Hfail : resolution_failure w).
  { exists "Linux", None, arch, PyNone. split; [done|split; [|done]].
    apply find_download_url_other_family.
    rewrite !not_elem_of_cons. repeat split; try done. apply not_elem_of_nil. }
  destruct (main_resolution_failure w Hfail) as (w' & Hmain & Hcalls).
  unfold run_script. rewrite Hmain. by simpl.
Qed.

Definition unreadable_world : World :=
  world_of (sample_host "Linux" "aarch64"
              (Raise (Exn FileNotFoundError "/etc/os-release"))) [].

Lemma unreadable_descriptor_ends_unresolved_witness :
  (get_system_info unreadable_world).2 = Ret ("Linux", None, Some "arm64") ∧
  resolution_failure unreadable_world ∧
  (run_script unreadable_world).2 = 1%Z ∧
  calls (main unreadable_world).1 = calls unreadable_world.
Proof.
  apply (unreadable_descriptor_ends_unresolved unreadable_world
           (Exn FileNotFoundError "/etc/os-release") "arm64"); reflexivity.
Defined.




Lemma upper_lower_char (c : ascii) :
  PyStr.upper_char (PyStr.lower_char c) = PyStr.upper_char c.
Proof. by destruct c as [[] [] [] [] [] [] [] []]. Qed.

Lemma lower_lower_char (c : ascii) :
  PyStr.lower_char (PyStr.lower_char c) = PyStr.lower_char c.
Proof. by destruct c as [[] [] [] [] [] [] [] []]. Qed.

Lemma lower_lower (s : string) : PyStr.lower (PyStr.lower s) = PyStr.lower s.
Proof.
  induction s as [|c s IH]; simpl; [done|].
  unfold PyStr.lower in *. simpl. by rewrite lower_lower_char, IH.
Qed.

Lemma capitalize_lower (s : string) :
  PyStr.capitalize (PyStr.lower s) = PyStr.capitalize s.
Proof.
  destruct s as [|c s]; simpl; [done|].
  by rewrite upper_lower_char, lower_lower.
Qed.

(** X5. The family the Detector returns on Linux does not depend on the
    case of the descriptor's ID: two identifiers that agree up to case give
    the same family, so [ubuntu], [Ubuntu] and [UBUNTU] are all the catalog
    family [Ubuntu]. *)
Theorem detector_family_ignores_case (w : World) (lines : list string)
    (d : gmap string string) (id id' : string) :
  system (host w) = "Linux" → os_release (host w) = Ret lines →
  os_release_dict lines ∅ = Ret d → d !! "ID" = Some id →
  PyStr.lower id = PyStr.lower id' →
  ∃ version arch,
    (get_system_info w).2 = Ret (PyStr.capitalize id', version, arch).
Proof.
  intros Hsys Hrel Hdict Hid Hcase.
  rewrite (get_system_info_with_id w lines d id Hsys Hrel Hdict Hid).
  rewrite <-(capitalize_lower id), Hcase, capitalize_lower. by eexists _, _.
Qed.

Definition shouting_os_release : list string := ["ID=UBUNTU"; "VERSION_ID=22.04"].

Lemma detector_family_ignores_case_witness :
  ∃ version arch,
    (get_system_info (world_of (sample_host "Linux" "x86_64" (Ret shouting_os_release)) [])).2
    = Ret (PyStr.capitalize "ubuntu", version, arch).
Proof.
  apply (detector_family_ignores_case
           (world_of (sample_host "Linux" "x86_64" (Ret shouting_os_release)) [])
           shouting_os_release
           {[ "ID" := "UBUNTU"; "VERSION_ID" := "22.04" ]} "UBUNTU" "ubuntu").
  - reflexivity.
  - reflexivity.
  - vm_compute. reflexivity.
  - vm_compute. reflexivity.
  - reflexivity.
Defined.

(** ** The Resolver on other dictionaries *)

(** X6. The Resolver never fails on a missing key: in any dictionary, a
    family that has no entry is not found, and for Ubuntu and Debian a
    version that is absent or has no entry under the family is not found
    either; the defaults of [get] stand in for the missing levels. *)
Theorem find_download_url_missing_key (os_name : string) (os_version arch : option string)
    (items : list (string * pyobj)) (w : World) :
  let r := (find_download_url os_name os_version arch (PyDict items) w).2 in
  (assoc os_name items = None → r = Ret PyNone) ∧
  (os_name ∈ ["Ubuntu"; "Debian"] →
   ∀ versions, assoc os_name items = Some (PyDict versions) →
     (os_version = None ∨ ∃ v, os_version = Some v ∧ assoc v versions = None) →
     r = Ret PyNone).
Proof.
  intros r. subst r. unfold find_download_url. unfold_M. simpl. split.
  - intros Hnone.
    destruct (decide (os_name = "macos")) as [->|Hmac]; simpl.
    + rewrite Hnone. simpl. by destruct arch.
    + case_bool_decide; simpl; [|done]. rewrite Hnone. simpl.
      destruct os_version; simpl; by destruct arch.
  - intros Hfam versions Hsome Hver.
    destruct (decide (os_name = "macos")) as [->|Hmac]; simpl.
    { apply list_elem_of_In in Hfam. simpl in Hfam. by destruct Hfam as [?|[?|[]]]. }
    rewrite bool_decide_eq_true_2 by done. simpl. rewrite Hsome. simpl.
    destruct Hver as [->|(v & -> & Hv)]; simpl.
    + by destruct arch.
    + rewrite Hv. simpl. by destruct arch.
Qed.

(** X7. The Resolver has no effect but one line on standard output: the
    file system, the pending input and the log of external calls are what
    they were, whatever it returns or raises. *)
Theorem find_download_url_only_prints (os_name : string) (os_version arch : option string)
    (packages_dict : pyobj) (w : World) :
  let w' := (find_download_url os_name os_version arch packages_dict w).1 in
  root w' = root w ∧ stdin w' = stdin w ∧ calls w' = calls w ∧ host w' = host w ∧
  ∃ line, stdout w' = stdout w ++ [line].
Proof.
  unfold find_download_url. unfold_M. simpl.
  destruct (decide (os_name = "macos")); simpl.
  - destruct (py_get packages_dict (Some "macos") (PyDict [])); simpl;
      repeat split; by eexists.
  - case_bool_decide; simpl; [|repeat split; by eexists].
    destruct (py_get packages_dict (Some os_name) (PyDict [])); simpl;
      [|repeat split; by eexists].
    destruct (py_get _ os_version (PyDict [])); simpl; repeat split; by eexists.
Qed.

(** What the Resolver returns on the catalog is [None] or a URL of the
    catalog for the triple. *)
Lemma find_download_url_result (os_name : string) (os_version arch : option string)
    (w : World) (r : pyobj) :
  (find_download_url os_name os_version arch wezterm_package_urls w).2 = Ret r →
  r = PyNone ∨ ∃ url, r = PyStr url ∧ in_catalog os_name os_version arch url.
Proof.
  unfold find_download_url. unfold_M. simpl.
  destruct (decide (os_name = "macos")) as [->|Hmac]; simpl.
  all: try (case_bool_decide as Hfam; simpl).
  all: try (apply list_elem_of_In in Hfam; simpl in Hfam;
            destruct Hfam as [<-|[<-|[]]]; simpl).
  all: destruct os_version as [v|], arch as [a|]; simpl; catalog_cases.
  all: intros [= <-]; first [by left | right; eexists; split; [done|by constructor]].
Qed.

(** X8. In a run of the script the Installer is only ever called with a
    URL of the catalog, the one for the platform the Detector returned. *)
Theorem installer_gets_catalog_url (w w1 : World) (url : pyobj) :
  reaches_installer w url w1 →
  ∃ os_name os_version arch u,
    (get_system_info w).2 = Ret (os_name, os_version, Some arch) ∧
    url = PyStr u ∧ in_catalog os_name os_version (Some arch) u.
Proof.
  intros (os_name & os_version & arch & Hdet & Hres & Hurl).
  exists os_name, os_version, arch.
  destruct (find_download_url_result os_name os_version (Some arch) w url)
    as [->|(u & -> & Hcat)].
  - by rewrite Hres.
  - done.
  - by exists u.
Qed.

Lemma installer_gets_catalog_url_witness :
  ∃ os_name os_version arch u,
    (get_system_info (world_of ubuntu_host [])).2 = Ret (os_name, os_version, Some arch) ∧
    PyStr ubuntu_deb_url = PyStr u ∧ in_catalog os_name os_version (Some arch) u.
Proof.
  apply (installer_gets_catalog_url (world_of ubuntu_host [])
           (find_download_url "Ubuntu" (Some "22") (Some "amd64")
              wezterm_package_urls (world_of ubuntu_host [])).1).
  by apply ubuntu_reaches_installer.
Defined.

(** ** The Installer's exits *)

(** The [except Exception] clause of the Installer lets no [Exception]
    out, and leaves the file system as the fault left it. *)
Lemma install_failed_no_fault (m : M bool) (w w' : World) (e : exn) :
  try_except m install_failed w = (w', Raise e) → is_Exception e = false.
Proof.
  unfold try_except, install_failed, except_Exception.
  destruct (m w) as [w1 [b|e1]]; [done|].
  destruct (is_Exception e1) eqn:He1; simpl; [done|].
  by intros [= _ <-].
Qed.

(** When the [finally] clause raises, the download path exists and the
    exception is the one [unlink] raised, after the message of line 108. *)
Lemma remove_download_raises (p : option path) (w w' : World) (e : exn) :
  remove_download p w = (w', Raise e) →
  ∃ q, p = Some q ∧ Fs.exists_ q (root w) = true ∧
       unlink q (add_stdout ("清理已下载的临时文件: " +:+ path_str q) w) = (w', Raise e).
Proof.
  destruct p as [q|]; [|done]. unfold remove_download, path_exists.
  unfold mbind at 1. unfold M_bind, gets. cbv beta iota zeta.
  destruct (Fs.exists_ q (root w)) eqn:Hex; [|done].
  unfold mbind at 1. unfold M_bind, print, modify. cbv beta iota zeta.
  intros Hrun. by exists q.
Qed.

(** X9. The Installer hands every [Exception] of the download and of the
    installation steps back as [False]: an [Exception] that leaves
    [download_and_install] was raised by the [unlink] of its [finally]
    clause, in the state the [try] statement left, at a download path that
    existed then.  This happens for a URL whose last component is a double
    dot, which names the parent of the working directory. *)
Theorem installer_raises_only_from_cleanup (url : pyobj) (w w' : World) (e : exn) :
  download_and_install url w = (w', Raise e) → is_Exception e = true →
  ∃ u w1,
    url = PyStr u ∧
    w1 = (try_except
            (download_then_install u (path_name u) (download_path_of (host w) u))
            install_failed w).1 ∧
    Fs.exists_ (download_path_of (host w) u) (root w1) = true ∧
    unlink (download_path_of (host w) u)
      (add_stdout ("清理已下载的临时文件: " +:+ path_str (download_path_of (host w) u)) w1)
    = (w', Raise e).
Proof.
  unfold download_and_install.
  destruct (negb (truthy url)); [done|].
  destruct url as [|u|items].
  - unfold try_finally. simpl. done.
  - unfold mbind at 1. unfold M_bind, gets. cbv beta iota zeta. unfold try_finally.
    destruct (try_except _ install_failed w) as [w1 r] eqn:Hbody.
    destruct (remove_download (Some (download_path_of (host w) u)) w1)
      as [w2 [[]|e2]] eqn:Hfin.
    + destruct r as [b|e1]; [done|]. intros [= <- <-] He.
      apply install_failed_no_fault in Hbody. congruence.
    + intros [= <- <-] _.
      destruct (remove_download_raises _ _ _ _ Hfin) as (q & [= <-] & Hex & Hrun).
      exists u, w1. by rewrite Hbody.
  - unfold try_finally. simpl. done.
Qed.

Definition parent_url : string := "https://example.org/downloads/..".

Lemma installer_raises_only_from_cleanup_witness :
  ∃ u w1,
    PyStr parent_url = PyStr u ∧
    w1 = (try_except
            (download_then_install u (path_name u)
               (download_path_of (host (world_of ubuntu_host [])) u))
            install_failed (world_of ubuntu_host [])).1 ∧
    Fs.exists_ (download_path_of (host (world_of ubuntu_host [])) u) (root w1) = true ∧
    unlink (download_path_of (host (world_of ubuntu_host [])) u)
      (add_stdout
         ("清理已下载的临时文件: "
          +:+ path_str (download_path_of (host (world_of ubuntu_host [])) u)) w1)
    = ((download_and_install (PyStr parent_url) (world_of ubuntu_host [])).1,
       Raise (Exn IsADirectoryError "/home/u/work/..")).
Proof.
  apply (installer_raises_only_from_cleanup (PyStr parent_url) (world_of ubuntu_host [])).
  - apply (pair_of_snd (download_and_install (PyStr parent_url) (world_of ubuntu_host []))).
    vm_compute. reflexivity.
  - reflexivity.
Defined.

(** The class of that exception is the one the host's system gives for
    the removal of a directory. *)
Example parent_url_on_linux_and_macos :
  (download_and_install (PyStr parent_url) (world_of ubuntu_host [])).2
  = Raise (Exn IsADirectoryError "/home/u/work/..") ∧
  (download_and_install (PyStr parent_url) (world_of macos_host [])).2
  = Raise (Exn PermissionError "/home/u/work/..").
Proof. vm_compute. done. Qed.

Lemma remove_download_calls (p : option path) (w : World) :
  calls (remove_download p w).1 = calls w.
Proof.
  destruct p as [q|]; [|done].
  unfold remove_download, path_exists, unlink. unfold_M. simpl.
  destruct (Fs.exists_ q (root w)); simpl; [|done].
  by destruct (Fs.lookup q (root w)) as [[?|?]|].
Qed.

Lemma try_finally_result {A} (body : M A) (fin : M unit) (w : World) :
  (try_finally body fin w).2 = (body w).2 ∨
  ∃ e, (try_finally body fin w).2 = Raise e.
Proof.
  unfold try_finally. destruct (body w) as [w1 r]. simpl.
  destruct (fin w1) as [w2 [[]|e]]; simpl; [by left|right; by eexists].
Qed.

(** X10. The Installer returns [True] only after a download that
    returned: when the download raises, the result is not [True], and the
    download is the only external call, so no installer is started. *)
Theorem failed_download_stops_installer (u : string) (w : World) (e : exn) :
  u ≠ "" →
  (urlretrieve u (download_path_of (host w) u) w).2 = Raise e →
  (download_and_install (PyStr u) w).2 ≠ Ret true ∧
  calls (download_and_install (PyStr u) w).1
  = calls w ++ [CallUrlretrieve u (download_path_of (host w) u)].
Proof.
  intros Hu Hdl. set (p := download_path_of (host w) u) in *.
  assert (Hcalls : calls (urlretrieve u p w).1 = calls w ++ [CallUrlretrieve u p]).
  { clear Hdl. unfold urlretrieve, write_file. unfold_M. simpl.
    destruct (fetch (host w) u) as [data|e' [data|]]; simpl; [| |done];
      destruct (Fs.lookup p (root w)) as [[?|?]|]; simpl; try done;
      destruct (Fs.lookup_parent p (root w)) as [[?|?]|]; simpl; done. }
  destruct (urlretrieve u p w) as [w1 r1] eqn:Hrun. simpl in *. subst r1.
  set (body := try_except (download_then_install u (path_name u) p) install_failed).
  assert (Hbody : (body w).2 ≠ Ret true ∧ calls (body w).1 = calls w ++ [CallUrlretrieve u p]).
  { subst body. unfold try_except, download_then_install. unfold_M. simpl.
    rewrite urlretrieve_add_stdout, Hrun. simpl.
    unfold install_failed, except_Exception.
    destruct (is_Exception e); simpl; by rewrite Hcalls. }
  assert (Hrun' : download_and_install (PyStr u) w
                  = try_finally body (remove_download (Some p)) w).
  { unfold download_and_install. simpl.
    by destruct (String.eqb_spec u "") as [|_]. }
  rewrite Hrun'. split.
  - destruct (try_finally_result body (remove_download (Some p)) w) as [->|[e' ->]];
      [apply Hbody|done].
  - rewrite try_finally_run, remove_download_calls. apply Hbody.
Qed.

Lemma failed_download_stops_installer_witness :
  (download_and_install (PyStr ubuntu_deb_url)
     (world_of (with_fetch broken_network ubuntu_host) [])).2 ≠ Ret true ∧
  calls (download_and_install (PyStr ubuntu_deb_url)
           (world_of (with_fetch broken_network ubuntu_host) [])).1
  = [] ++ [CallUrlretrieve ubuntu_deb_url
             (download_path_of (with_fetch broken_network ubuntu_host) ubuntu_deb_url)].
Proof.
  apply (failed_download_stops_installer ubuntu_deb_url
           (world_of (with_fetch broken_network ubuntu_host) [])
           (Exn URLError "connection reset")).
  - done.
  - vm_compute. reflexivity.
Defined.

Lemma subprocess_run_spec (argv : list string) (w : World) :
  calls (subprocess_run argv w).1 = calls w ++ [CallRun argv] ∧
  ((subprocess_run argv w).2 = Ret () →
   (run_process (host w) argv (root w)).2 = Exited 0).
Proof.
  unfold subprocess_run. unfold_M. simpl.
  destruct (run_process (host w) argv (root w)) as [t [[| |]|e]]; done.
Qed.

(** The command line of the package manager (line 85). *)
Definition apt_argv (file_name : string) : list string :=
  ["sudo"; "apt-get"; "install"; "-y"; "./" +:+ file_name].

(** X11. A downloaded file whose name ends in [.deb] goes to the package
    manager: the Installer's external calls are the download and then
    [sudo apt-get install -y ./name], nothing else, and it returns [True]
    only if that process exited with status 0. *)
Theorem deb_package_goes_to_apt (u : string) (w w1 : World) :
  u ≠ "" →
  PyStr.endswith (path_name u) ".deb" = true →
  urlretrieve u (download_path_of (host w) u) w = (w1, Ret ()) →
  calls (download_and_install (PyStr u) w).1
  = calls w ++ [CallUrlretrieve u (download_path_of (host w) u);
                CallRun (apt_argv (path_name u))] ∧
  ((download_and_install (PyStr u) w).2 = Ret true →
   (run_process (host w) (apt_argv (path_name u)) (root w1)).2 = Exited 0).
Proof.
  intros Hu Hdeb Hrun. set (p := download_path_of (host w) u) in *.
  destruct (urlretrieve_returns u p w w1 Hrun) as (Hhost & _ & _ & Hcalls & _).
  set (body := try_except (download_then_install u (path_name u) p) install_failed).
  set (w1' := add_stdout "检测到 .deb 软件包，将尝试使用 apt-get 进行安装..."
                (add_stdout ("下载成功！文件已保存为: " +:+ path_str p)
                   (add_stdout ("准备下载: " +:+ path_name u) w1))).
  pose proof (subprocess_run_spec (apt_argv (path_name u)) w1') as [Hc Hr].
  assert (Hbody : calls (body w).1 = calls w ++ [CallUrlretrieve u p; CallRun (apt_argv (path_name u))] ∧
                  ((body w).2 = Ret true →
                   (run_process (host w) (apt_argv (path_name u)) (root w1)).2 = Exited 0)).
  { subst body. unfold try_except, download_then_install. unfold_M. simpl.
    rewrite urlretrieve_add_stdout, Hrun. simpl. rewrite Hdeb.
    fold (apt_argv (path_name u)). fold w1'.
    destruct (subprocess_run (apt_argv (path_name u)) w1') as [w3 [[]|e]]; simpl in *.
    - rewrite Hc, Hcalls, <-app_assoc. split; [done|]. intros _.
      rewrite <-Hhost. by apply Hr.
    - unfold install_failed, except_Exception.
      destruct (is_Exception e); simpl; rewrite Hc, Hcalls, <-app_assoc; done. }
  assert (Hrun' : download_and_install (PyStr u) w
                  = try_finally body (remove_download (Some p)) w).
  { unfold download_and_install. simpl.
    by destruct (String.eqb_spec u "") as [|_]. }
  rewrite Hrun'. split.
  - rewrite try_finally_run, remove_download_calls. apply Hbody.
  - destruct (try_finally_result body (remove_download (Some p)) w) as [->|[e' ->]];
      [apply Hbody|done].
Qed.

Lemma deb_package_goes_to_apt_witness :
  calls (download_and_install (PyStr ubuntu_deb_url) (world_of ubuntu_host [])).1
  = [] ++ [CallUrlretrieve ubuntu_deb_url (download_path_of ubuntu_host ubuntu_deb_url);
           CallRun (apt_argv (path_name ubuntu_deb_url))] ∧
  ((download_and_install (PyStr ubuntu_deb_url) (world_of ubuntu_host [])).2 = Ret true →
   (run_process ubuntu_host (apt_argv (path_name ubuntu_deb_url))
      (root (urlretrieve ubuntu_deb_url (download_path_of ubuntu_host ubuntu_deb_url)
               (world_of ubuntu_host [])).1)).2 = Exited 0).
Proof.
  apply (deb_package_goes_to_apt ubuntu_deb_url (world_of ubuntu_host [])).
  - done.
  - vm_compute. reflexivity.
  - apply (pair_of_snd (urlretrieve ubuntu_deb_url
                          (download_path_of ubuntu_host ubuntu_deb_url)
                          (world_of ubuntu_host []))).
    vm_compute. reflexivity.
Defined.

(** A temporary directory is gone when its block is left, however the
    block is left. *)
Lemma with_TemporaryDirectory_discards {A} (body : path → M A) (w : World) :
  Fs.lookup (mkdtemp (host w) (root w)) (root w) = None →
  Fs.lookup (mkdtemp (host w) (root w)) (root (with_TemporaryDirectory body w).1) = None.
Proof.
  intros Hfree. set (t := mkdtemp (host w) (root w)) in *.
  assert (Hn : normalize t ≠ []).
  { intros Hn. by rewrite (lookup_root t _ Hn) in Hfree. }
  unfold with_TemporaryDirectory. unfold_M. simpl. fold t. rewrite Hfree.
  destruct (Fs.lookup_parent t (root w)) as [[data|ch]|]; simpl; try done.
  rewrite try_finally_run. simpl. by apply lookup_remove.
Qed.

(** X12. The directory into which the archive is unpacked does not
    outlive the installation of the bundle: if the name picked for it was
    free, nothing is found under that name afterwards, whether the bundle
    was installed, was missing from the archive, or a step failed. *)
Theorem install_app_bundle_discards_tempdir (download_path : path) (w : World) :
  Fs.lookup (mkdtemp (host w) (root w)) (root w) = None →
  Fs.lookup (mkdtemp (host w) (root w)) (root (install_app_bundle download_path w).1)
  = None.
Proof.
  intros Hfree. unfold install_app_bundle.
  unfold mbind at 1. unfold M_bind at 1. unfold print at 1. unfold modify.
  cbv beta iota.
  by apply (with_TemporaryDirectory_discards _ (add_stdout _ w)).
Qed.

Lemma install_app_bundle_discards_tempdir_witness :
  Fs.lookup ["tmp"; "tmpa1b2c3"]
    (root (install_app_bundle ["home"; "u"; "work"; "WezTerm.zip"]
             (world_of macos_host [])).1) = None.
Proof.
  apply (install_app_bundle_discards_tempdir ["home"; "u"; "work"; "WezTerm.zip"]
           (world_of macos_host [])).
  vm_compute. reflexivity.
Defined.

(** ** The Configurator's other paths *)

(** X13. With nothing to do the Configurator does nothing: on a host that
    is neither Linux nor macOS and has no git, it prints its banner, the
    two notices and its closing lines, makes no external call, leaves the
    file system as it was, and returns. *)
Theorem configurator_without_fonts_and_git (w : World) :
  system (host w) ≠ "Linux" → system (host w) ≠ "Darwin" →
  which (host w) "git" = None →
  (apply_wezterm_configuration w).2 = Ret () ∧
  root (apply_wezterm_configuration w).1 = root w ∧
  calls (apply_wezterm_configuration w).1 = calls w ∧
  stdout (apply_wezterm_configuration w).1
  = stdout w ++ [config_banner;
                 "不支持的操作系统 '" +:+ system (host w) +:+ "'，跳过字体安装。";
                 "警告: 未找到 'git' 命令，跳过配置文件克隆。";
                 "--- WezTerm 配置完成 ---";
                 "请重启您的 WezTerm 实例以使所有更改生效。"].
Proof.
  intros Hlinux Hdarwin Hgit.
  unfold apply_wezterm_configuration, font_phase, font_setup, resolve_font_dir,
    clone_phase.
  unfold_M. simpl.
  rewrite !decide_False by done. simpl. rewrite Hgit.
  rewrite bool_decide_eq_false_2 by (by intros [? ?]). simpl.
  by rewrite <-!app_assoc.
Qed.

Definition bare_windows_host : Host :=
  mkHost "Windows" "AMD64" (Ret []) ["Users"; "u"] ["Users"; "u"; "work"]
    (λ _, Fetched "bytes") (λ _ t, (t, Exited 0)) (λ _, Ret ∅)
    (λ _, ["tmp"; "t"]) (λ _, None).

Lemma configurator_without_fonts_and_git_witness :
  (apply_wezterm_configuration (world_of bare_windows_host [])).2 = Ret () ∧
  root (apply_wezterm_configuration (world_of bare_windows_host [])).1 = sample_tree ∧
  calls (apply_wezterm_configuration (world_of bare_windows_host [])).1 = [] ∧
  stdout (apply_wezterm_configuration (world_of bare_windows_host [])).1
  = [] ++ [config_banner;
           "不支持的操作系统 '" +:+ "Windows" +:+ "'，跳过字体安装。";
           "警告: 未找到 'git' 命令，跳过配置文件克隆。";
           "--- WezTerm 配置完成 ---";
           "请重启您的 WezTerm 实例以使所有更改生效。"].
Proof.
  apply (configurator_without_fonts_and_git (world_of bare_windows_host [])); done.
Defined.

Lemma clone_phase_with_git (w : World) :
  is_Some (which (host w) "git") →
  clone_phase w
  = try_except (backup_and_clone (config_dir_of (host w))) clone_failed
      (add_stdout "正在克隆 wezterm-config 配置文件..." w).
Proof.
  intros Hgit. unfold clone_phase. unfold mbind at 1. unfold M_bind, gets. simpl.
  by rewrite bool_decide_eq_true_2.
Qed.

(** X14. When the backup path holds a regular file, the configuration
    phase gives up before it has changed anything: the removal of the
    supposed backup directory fails, the fault is caught and reported, no
    clone is attempted, and the configuration stays where it was. *)
Theorem backup_blocked_by_file (w : World) (old : node) (data : string) :
  is_Some (which (host w) "git") →
  Fs.lookup (config_dir_of (host w)) (root w) = Some old →
  Fs.lookup (backup_dir_of (host w)) (root w) = Some (File data) →
  (clone_phase w).2 = Ret () ∧
  root (clone_phase w).1 = root w ∧
  calls (clone_phase w).1 = calls w.
Proof.
  intros Hgit Hold Hbak. rewrite (clone_phase_with_git w Hgit).
  unfold try_except, backup_and_clone, path_exists, Fs.exists_. unfold_M. simpl.
  rewrite Hold. rewrite bool_decide_eq_true_2 by eauto. simpl.
  fold (backup_dir_of (host w)). rewrite Hbak.
  rewrite bool_decide_eq_true_2 by eauto.
  unfold rmtree. unfold_M. simpl. by rewrite Hbak.
Qed.

Definition blocked_tree : Fs.tree :=
  {[ "home" := Dir {[ "u" := Dir {[
       "work" := Dir ∅;
       ".config" := Dir {[
         "wezterm" := Dir {[ "wezterm.lua" := File "current" ]};
         "wezterm.bak" := File "notes" ]} ]} ]} ]}.

Definition blocked_world : World := mkWorld ubuntu_host blocked_tree [] [] [].

Lemma backup_blocked_by_file_witness :
  (clone_phase blocked_world).2 = Ret () ∧
  root (clone_phase blocked_world).1 = blocked_tree ∧
  calls (clone_phase blocked_world).1 = [].
Proof.
  apply (backup_blocked_by_file blocked_world current_configuration "notes").
  - by eexists.
  - vm_compute. reflexivity.
  - vm_compute. reflexivity.
Defined.

(** X15. Without a configuration at the target path the phase goes
    straight to the clone: no backup is made or removed, the clone is the
    only external call, and it runs on the file system as it was. *)
Theorem clone_without_existing_configuration (w : World) :
  is_Some (which (host w) "git") →
  Fs.lookup (config_dir_of (host w)) (root w) = None →
  calls (clone_phase w).1 = calls w ++ [CallRun (git_clone_argv (host w))] ∧
  root (clone_phase w).1 = (run_process (host w) (git_clone_argv (host w)) (root w)).1.
Proof.
  intros Hgit Hnone. rewrite (clone_phase_with_git w Hgit).
  unfold try_except, backup_and_clone, path_exists, Fs.exists_. unfold_M. simpl.
  rewrite Hnone. rewrite bool_decide_eq_false_2 by (by intros [? ?]). simpl.
  fold (config_dir_of (host w)). fold (git_clone_argv (host w)).
  set (w0 := add_stdout "正在克隆 wezterm-config 配置文件..." w).
  pose proof (subprocess_run_spec (git_clone_argv (host w)) w0) as [Hc _].
  pose proof (subprocess_run_root (git_clone_argv (host w)) w0) as Hr.
  destruct (subprocess_run (git_clone_argv (host w)) w0) as [w1 [[]|e]]; simpl in *.
  - done.
  - unfold clone_failed, except_Exception. by destruct (is_Exception e).
Qed.

Definition fresh_tree : Fs.tree :=
  {[ "home" := Dir {[ "u" := Dir {[ "work" := Dir ∅ ]} ]} ]}.

Lemma clone_without_existing_configuration_witness :
  calls (clone_phase (mkWorld ubuntu_host fresh_tree [] [] [])).1
  = [] ++ [CallRun (git_clone_argv ubuntu_host)] ∧
  root (clone_phase (mkWorld ubuntu_host fresh_tree [] [] [])).1
  = (run_process ubuntu_host (git_clone_argv ubuntu_host) fresh_tree).1.
Proof.
  apply (clone_without_existing_configuration (mkWorld ubuntu_host fresh_tree [] [] [])).
  - by eexists.
  - vm_compute. reflexivity.
Defined.

(** The state in which the clone starts once an existing configuration
    has been moved out of the way. *)
Lemma backup_then_clone (w : World) (old : node) :
  let cfg := config_dir_of (host w) in
  let bak := backup_dir_of (host w) in
  Fs.lookup cfg (root w) = Some old →
  Fs.isfile bak (root w) = false →
  ∃ wb, backup_and_clone cfg w
        = (subprocess_run (git_clone_argv (host w));; print "配置文件克隆成功！") wb ∧
        host wb = host w ∧ calls wb = calls w ∧
        Fs.lookup bak (root wb) = Some old ∧ Fs.lookup cfg (root wb) = None.
Proof.
  intros cfg bak Hold Hnofile.
  pose proof (normalize_config_dir (host w)) as Hcfg.
  pose proof (normalize_backup_dir (host w)) as Hbak.
  fold cfg in Hcfg. fold bak in Hbak.
  set (d := normalize (home (host w)) ++ [".config"]) in *.
  assert (Hne : "wezterm" ≠ "wezterm.bak") by done.
  assert (Hne' : "wezterm.bak" ≠ "wezterm") by done.
  unfold backup_and_clone. fold cfg. change (with_suffix cfg ".bak") with bak.
  fold (git_clone_argv (host w)).
  unfold path_exists, Fs.exists_. unfold_M. simpl.
  rewrite Hold. rewrite bool_decide_eq_true_2 by eauto. simpl.
  unfold Fs.isfile in Hnofile.
  destruct (Fs.lookup bak (root w)) as [[data|ch]|] eqn:Hb; [done| |].
  - rewrite bool_decide_eq_true_2 by eauto.
    erewrite rmtree_removes; [|exact Hb|rewrite Hbak; by destruct d].
    assert (Hold' : Fs.lookup cfg (Fs.remove bak (root w)) = Some old)
      by (by rewrite (lookup_remove_sibling cfg bak d "wezterm" "wezterm.bak")).
    erewrite (shutil_move_renames cfg bak d "wezterm" "wezterm.bak" old); try done;
      simpl.
    2: { apply lookup_remove. rewrite Hbak. by destruct d. }
    destruct (lookup_after_rename cfg bak d "wezterm" "wezterm.bak" old
                (Fs.remove bak (root w)) Hcfg Hbak Hne Hold') as [H1 H2].
    eexists. split; [reflexivity|]. simpl. done.
  - rewrite bool_decide_eq_false_2 by (by intros [? ?]). simpl.
    erewrite (shutil_move_renames cfg bak d "wezterm" "wezterm.bak" old); try done;
      simpl.
    destruct (lookup_after_rename cfg bak d "wezterm" "wezterm.bak" old
                (root w) Hcfg Hbak Hne Hold) as [H1 H2].
    eexists. split; [reflexivity|]. simpl. done.
Qed.

(** X16. When an existing configuration has been backed up, the clone
    starts with a clear target: the file system handed to [git clone] has
    nothing at the configuration path and the prior configuration at the
    backup path, and the clone is the phase's only external call. *)
Theorem clone_starts_with_clear_target (w : World) (old : node) :
  is_Some (which (host w) "git") →
  Fs.lookup (config_dir_of (host w)) (root w) = Some old →
  Fs.isfile (backup_dir_of (host w)) (root w) = false →
  ∃ t, Fs.lookup (config_dir_of (host w)) t = None ∧
       Fs.lookup (backup_dir_of (host w)) t = Some old ∧
       root (clone_phase w).1 = (run_process (host w) (git_clone_argv (host w)) t).1 ∧
       calls (clone_phase w).1 = calls w ++ [CallRun (git_clone_argv (host w))].
Proof.
  intros Hgit Hold Hnofile. rewrite (clone_phase_with_git w Hgit).
  destruct (backup_then_clone (add_stdout "正在克隆 wezterm-config 配置文件..." w) old
              Hold Hnofile) as (wb & Hrun & Hhost & Hcalls & Hbak & Hcfg).
  simpl in Hhost, Hcalls. change (host (add_stdout _ w)) with (host w) in *.
  exists (root wb). split; [done|split; [done|]].
  unfold try_except. rewrite Hrun. unfold_M.
  pose proof (subprocess_run_spec (git_clone_argv (host w)) wb) as [Hc _].
  pose proof (subprocess_run_root (git_clone_argv (host w)) wb) as Hr.
  rewrite Hhost in Hr.
  destruct (subprocess_run (git_clone_argv (host w)) wb) as [w1 [[]|e]]; simpl in *.
  - by rewrite Hc, Hcalls.
  - unfold clone_failed, except_Exception.
    destruct (is_Exception e); simpl; by rewrite Hc, Hcalls.
Qed.

Lemma clone_starts_with_clear_target_witness :
  ∃ t, Fs.lookup (config_dir_of ubuntu_host) t = None ∧
       Fs.lookup (backup_dir_of ubuntu_host) t = Some current_configuration ∧
       root (clone_phase (world_of ubuntu_host [])).1
       = (run_process ubuntu_host (git_clone_argv ubuntu_host) t).1 ∧
       calls (clone_phase (world_of ubuntu_host [])).1
       = [] ++ [CallRun (git_clone_argv ubuntu_host)].
Proof.
  apply (clone_starts_with_clear_target (world_of ubuntu_host []) current_configuration).
  - by eexists.
  - vm_compute. reflexivity.
  - vm_compute. reflexivity.
Defined.

(** X17. A clone that fails does not bring the configuration back: when
    [git clone] exits with a non-zero status and has created nothing, the
    fault is caught and reported, and afterwards the configuration path is
    empty while the prior configuration sits at the backup path. *)
Theorem failed_clone_is_not_rolled_back (w : World) (old : node) (status : Z) :
  is_Some (which (host w) "git") →
  Fs.lookup (config_dir_of (host w)) (root w) = Some old →
  Fs.isfile (backup_dir_of (host w)) (root w) = false →
  status ≠ 0%Z →
  (∀ t, run_process (host w) (git_clone_argv (host w)) t = (t, Exited status)) →
  (clone_phase w).2 = Ret () ∧
  Fs.lookup (config_dir_of (host w)) (root (clone_phase w).1) = None ∧
  Fs.lookup (backup_dir_of (host w)) (root (clone_phase w).1) = Some old.
Proof.
  intros Hgit Hold Hnofile Hstatus Hfail. rewrite (clone_phase_with_git w Hgit).
  destruct (backup_then_clone (add_stdout "正在克隆 wezterm-config 配置文件..." w) old
              Hold Hnofile) as (wb & Hrun & Hhost & Hcalls & Hbak & Hcfg).
  simpl in Hhost, Hcalls. change (host (add_stdout _ w)) with (host w) in *.
  unfold try_except. rewrite Hrun.
  unfold subprocess_run. unfold_M. simpl. rewrite Hhost, Hfail. simpl.
  destruct status as [|n|n]; [done| |]; simpl; done.
Qed.

Lemma failed_clone_is_not_rolled_back_witness :
  (clone_phase (world_of (with_run_process failing_process ubuntu_host) [])).2 = Ret () ∧
  Fs.lookup (config_dir_of ubuntu_host)
    (root (clone_phase (world_of (with_run_process failing_process ubuntu_host) [])).1)
  = None ∧
  Fs.lookup (backup_dir_of ubuntu_host)
    (root (clone_phase (world_of (with_run_process failing_process ubuntu_host) [])).1)
  = Some current_configuration.
Proof.
  apply (failed_clone_is_not_rolled_back
           (world_of (with_run_process failing_process ubuntu_host) [])
           current_configuration 100).
  - by eexists.
  - vm_compute. reflexivity.
  - vm_compute. reflexivity.
  - done.
  - intros t. reflexivity.
Defined.

(** ** The end of the script *)

(** X18. An interrupt after a successful installation, at the prompt or
    anywhere in the configuration phase, is caught: the script reports the
    cancellation and ends with exit status 0. *)
Theorem interrupt_after_install_exits_zero (w w1 w2 w3 : World) (url : pyobj) (e : exn) :
  reaches_installer w url w1 →
  download_and_install url w1 = (w2, Ret true) →
  ask_and_configure w2 = (w3, Raise e) →
  is_KeyboardInterrupt e = true →
  main w = (add_stdout "操作已取消。跳过自动配置。" w3, Ret ()) ∧
  (run_script w).2 = 0%Z.
Proof.
  intros Hreach Hinst Hask He.
  assert (Hmain : main w = (add_stdout "操作已取消。跳过自动配置。" w3, Ret ())).
  { rewrite (main_reaches_installer w url w1 Hreach).
    unfold mbind, M_bind. rewrite Hinst.
    unfold try_except, prompt_interrupted. by rewrite Hask, He. }
  split; [done|]. unfold run_script. by rewrite Hmain.
Qed.

Definition interrupt : exn := Exn KeyboardInterrupt "".

Lemma interrupt_after_install_exits_zero_witness :
  let w := world_of ubuntu_host [Raise interrupt] in
  let w1 := (find_download_url "Ubuntu" (Some "22") (Some "amd64")
               wezterm_package_urls w).1 in
  let w2 := (download_and_install (PyStr ubuntu_deb_url) w1).1 in
  let w3 := (ask_and_configure w2).1 in
  main w = (add_stdout "操作已取消。跳过自动配置。" w3, Ret ()) ∧ (run_script w).2 = 0%Z.
Proof.
  intros w w1 w2 w3.
  apply (interrupt_after_install_exits_zero w w1 w2 w3 (PyStr ubuntu_deb_url) interrupt).
  - subst w1. by apply ubuntu_reaches_installer.
  - subst w2.
    apply (pair_of_snd (download_and_install (PyStr ubuntu_deb_url) w1) (Ret true)).
    vm_compute. reflexivity.
  - subst w3. apply (pair_of_snd (ask_and_configure w2) (Raise interrupt)).
    vm_compute. reflexivity.
  - reflexivity.
Defined.

(** X19. End of input at the prompt is not caught: after a successful
    installation with nothing left on standard input, the script dies with
    [EOFError] and exit status 1, the package installed and nothing
    configured. *)
Theorem end_of_input_at_prompt (w w1 w2 : World) (url : pyobj) :
  reaches_installer w url w1 →
  download_and_install url w1 = (w2, Ret true) →
  stdin w2 = [] →
  (main w).2 = Raise (Exn EOFError "EOF when reading a line") ∧
  (run_script w).2 = 1%Z ∧
  root (main w).1 = root w2.
Proof.
  intros Hreach Hinst Hin.
  assert (Hmain : main w
    = (add_call (CallInput install_prompt) (add_stdout install_prompt w2),
       Raise (Exn EOFError "EOF when reading a line"))).
  { rewrite (main_reaches_installer w url w1 Hreach).
    unfold mbind at 1. unfold M_bind at 1. rewrite Hinst.
    unfold try_except, ask_and_configure, input. unfold_M. simpl. by rewrite Hin. }
  unfold run_script. by rewrite Hmain.
Qed.

Lemma end_of_input_at_prompt_witness :
  let w := world_of ubuntu_host [] in
  let w1 := (find_download_url "Ubuntu" (Some "22") (Some "amd64")
               wezterm_package_urls w).1 in
  let w2 := (download_and_install (PyStr ubuntu_deb_url) w1).1 in
  (main w).2 = Raise (Exn EOFError "EOF when reading a line") ∧
  (run_script w).2 = 1%Z ∧
  root (main w).1 = root w2.
Proof.
  intros w w1 w2.
  apply (end_of_input_at_prompt w w1 w2 (PyStr ubuntu_deb_url)).
  - subst w1. by apply ubuntu_reaches_installer.
  - subst w2.
    apply (pair_of_snd (download_and_install (PyStr ubuntu_deb_url) w1) (Ret true)).
    vm_compute. reflexivity.
  - vm_compute. reflexivity.
Defined.

(** X20. The script touches nothing outside the process before it has a
    package to install: a run that makes any external call has got past
    detection and resolution and has called the Installer. *)
Theorem no_call_before_installer (w : World) :
  calls (main w).1 ≠ calls w →
  ∃ url w1, reaches_installer w url w1.
Proof.
  intros Hcalls.
  destruct (get_system_info w).2 as [[[os_name os_version] [arch|]]|e] eqn:Hdet.
  - destruct (find_download_url os_name os_version (Some arch) wezterm_package_urls w)
      as [w1 [url|e]] eqn:Hres.
    + destruct (truthy url) eqn:Hurl.
      * exists url, w1. by exists os_name, os_version, arch.
      * assert (Hfail : resolution_failure w).
        { exists os_name, os_version, arch, url. by rewrite Hres. }
        destruct (main_resolution_failure w Hfail) as (w' & Hmain & Hsame).
        rewrite Hmain in Hcalls. by destruct Hcalls.
    + exfalso. apply Hcalls.
      pose proof (get_system_info_world w) as Hw.
      pose proof (arch_key_of_truthy _ _ (eq_sym (get_system_info_arch _ _ _ _ Hdet))) as Ha.
      pose proof (find_download_url_calls os_name os_version (Some arch)
                    wezterm_package_urls w) as Hc.
      unfold main. unfold_M.
      destruct (get_system_info w) as [w0 r]. simpl in Hw, Hdet. subst.
      change (opt_to_py (Some arch)) with (PyStr arch). rewrite Ha. simpl.
      rewrite Hres in *. done.
  - exfalso. apply Hcalls.
    assert (Hfail : detection_failure w) by (by exists os_name, os_version).
    by rewrite (main_detection_failure w Hfail).
  - exfalso. apply Hcalls. by rewrite (main_detector_raises w e Hdet).
Qed.

Lemma no_call_before_installer_witness :
  ∃ url w1, reaches_installer (world_of ubuntu_host []) url w1.
Proof.
  apply (no_call_before_installer (world_of ubuntu_host [])).
  vm_compute. discriminate.
Defined.

(** ** The application bundle *)

Lemma zip_extractall_calls (archive dst : path) (w : World) :
  calls (zip_extractall archive dst w).1 = calls w ++ [CallExtract archive dst].
Proof.
  unfold zip_extractall, mkdir. unfold_M. simpl.
  destruct (Fs.lookup archive (root w)) as [[data|?]|]; simpl; try done.
  destruct (unzip (host w) data) as [members|e]; simpl; [|done].
  destruct (Fs.lookup dst (root w)) as [[?|ch]|] eqn:Hdst; simpl; try done.
  - by rewrite Hdst.
  - destruct (Fs.mkdirs dst (root w)) as [t|]; simpl; [|done].
    by destruct (Fs.lookup dst t) as [[?|?]|].
Qed.

Local Arguments zip_extractall : simpl never.

(** X21. No bundle, no [sudo]: when unpacking the archive fails, or the
    unpacked archive has no entry whose name ends in [.app], the
    installation of the bundle raises and has started no child process;
    in particular an application already installed is not removed. *)
Theorem no_bundle_no_sudo (download_path : path) (w w_e : World)
    (ch : gmap string node) (r : outcome unit) :
  let t := mkdtemp (host w) (root w) in
  let w_t := set_root (Fs.put t (Dir ∅) (root w))
               (add_stdout "检测到 .zip 压缩包，将尝试自动解压并移动到 /Applications..." w) in
  Fs.lookup t (root w) = None →
  Fs.lookup_parent t (root w) = Some (Dir ch) →
  zip_extractall download_path t w_t = (w_e, r) →
  r ≠ Ret () ∨ Fs.glob_suffix t ".app" (root w_e) = [] →
  (∃ e, (install_app_bundle download_path w).2 = Raise e) ∧
  calls (install_app_bundle download_path w).1
  = calls w ++ [CallExtract download_path t].
Proof.
  intros t w_t Hfree Hparent Hzip Hnone.
  pose proof (zip_extractall_calls download_path t w_t) as Hcalls.
  rewrite Hzip in Hcalls. simpl in Hcalls.
  unfold install_app_bundle, with_TemporaryDirectory, try_finally. unfold_M. simpl.
  fold t. rewrite Hfree, Hparent. fold w_t. rewrite Hzip.
  destruct r as [[]|e].
  - destruct Hnone as [?|Hglob]; [done|]. rewrite Hglob. simpl.
    split; [by eexists|done].
  - simpl. split; [by eexists|done].
Qed.

Definition archive_path : path := ["home"; "u"; "work"; "WezTerm.zip"].

Definition archive_world : World :=
  mkWorld (with_unzip empty_archive macos_host)
    (Fs.put archive_path (File "bytes") sample_tree) [] [] [].

Lemma no_bundle_no_sudo_witness :
  (∃ e, (install_app_bundle archive_path archive_world).2 = Raise e) ∧
  calls (install_app_bundle archive_path archive_world).1
  = [] ++ [CallExtract archive_path ["tmp"; "tmpa1b2c3"]].
Proof.
  apply (no_bundle_no_sudo archive_path archive_world
           (zip_extractall archive_path ["tmp"; "tmpa1b2c3"]
              (set_root (Fs.put ["tmp"; "tmpa1b2c3"] (Dir ∅) (root archive_world))
                 (add_stdout "检测到 .zip 压缩包，将尝试自动解压并移动到 /Applications..."
                    archive_world))).1
           ∅ (Ret ())).
  - vm_compute. reflexivity.
  - vm_compute. reflexivity.
  - apply pair_of_snd. vm_compute. reflexivity.
  - right. vm_compute. reflexivity.
Defined.

(** ** The descriptor, line by line *)

Lemma os_release_dict_app (l1 l2 : list string) (acc : gmap string string) :
  os_release_dict (l1 ++ l2) acc
  = match os_release_dict l1 acc with
    | Ret d => os_release_dict l2 d
    | Raise e => Raise e
    end.
Proof.
  revert acc. induction l1 as [|line l1 IH]; intros acc; simpl; [done|].
  destruct (PyStr.contains_char "=" line); [|apply IH].
  destruct (PyStr.split_once "=" (PyStr.strip line)) as [k [v|]]; [apply IH|done].
Qed.

Definition with_os_release (r : outcome (list string)) (h : Host) : Host :=
  mkHost (system h) (machine h) r (home h) (cwd h) (fetch h)
    (run_process h) (unzip h) (mkdtemp h) (which h).

Definition set_host (h : Host) (w : World) : World :=
  mkWorld h (root w) (stdout w) (stdin w) (calls w).

(** The Detector's result depends on the descriptor through the
    dictionary only. *)
Lemma get_system_info_dict (w : World) (lines lines' : list string) :
  os_release_dict lines ∅ = os_release_dict lines' ∅ →
  (get_system_info (set_host (with_os_release (Ret lines) (host w)) w)).2
  = (get_system_info (set_host (with_os_release (Ret lines') (host w)) w)).2.
Proof.
  intros Hsame. unfold get_system_info, try_except. unfold_M. simpl.
  repeat case_decide; simpl; try done. rewrite Hsame.
  destruct (os_release_dict lines' ∅) as [d|e]; simpl;
    [by destruct (d !! "ID")|by destruct (is_OSError e)].
Qed.

(** X22. A line without an equals sign, such as a comment or a blank
    line, is ignored wherever it stands: the Detector returns the same
    with and without it. *)
Theorem line_without_equals_is_ignored (w : World) (before after : list string)
    (line : string) :
  PyStr.contains_char "=" line = false →
  (get_system_info (set_host (with_os_release (Ret (before ++ line :: after)) (host w)) w)).2
  = (get_system_info (set_host (with_os_release (Ret (before ++ after)) (host w)) w)).2.
Proof.
  intros Hline. apply get_system_info_dict.
  rewrite !os_release_dict_app. destruct (os_release_dict before ∅); [|done].
  simpl. by rewrite Hline.
Qed.

Lemma line_without_equals_is_ignored_witness :
  (get_system_info
     (set_host (with_os_release
                  (Ret (["NAME=Ubuntu"] ++ "# a comment" :: ["ID=ubuntu"; "VERSION_ID=22.04"]))
                  ubuntu_host) (world_of ubuntu_host []))).2
  = (get_system_info
       (set_host (with_os_release
                    (Ret (["NAME=Ubuntu"] ++ ["ID=ubuntu"; "VERSION_ID=22.04"]))
                    ubuntu_host) (world_of ubuntu_host []))).2.
Proof.
  apply (line_without_equals_is_ignored (world_of ubuntu_host []) ["NAME=Ubuntu"]
           ["ID=ubuntu"; "VERSION_ID=22.04"] "# a comment").
  reflexivity.
Defined.

(** X23. The last assignment wins: after any lines, a final line that
    assigns [value] to [key] makes the dictionary hold, under [key], that
    value without its surrounding double quotes, whatever the earlier
    lines assigned. *)
Theorem last_assignment_wins (lines : list string) (line key value : string) :
  PyStr.contains_char "=" line = true →
  PyStr.split_once "=" (PyStr.strip line) = (key, Some value) →
  ∃ d, os_release_dict (lines ++ [line]) ∅ = Ret d ∧
       d !! key = Some (PyStr.strip_chars dquote value).
Proof.
  intros Hline Hsplit. rewrite os_release_dict_app.
  destruct (os_release_dict_total lines ∅) as [d0 ->]. simpl.
  rewrite Hline, Hsplit. eexists. split; [done|]. apply lookup_insert_eq.
Qed.

Lemma last_assignment_wins_witness :
  ∃ d, os_release_dict (["ID=debian"; "VERSION_ID=12"] ++ ["ID=ubuntu"]) ∅ = Ret d ∧
       d !! "ID" = Some (PyStr.strip_chars dquote "ubuntu").
Proof.
  apply (last_assignment_wins ["ID=debian"; "VERSION_ID=12"] "ID=ubuntu" "ID" "ubuntu");
    reflexivity.
Defined.

Lemma rev_app_app (s1 s2 u : string) :
  String.rev_app (s1 +:+ s2) u = String.rev_app s2 (String.rev_app s1 u).
Proof.
  revert u. induction s1 as [|c s1 IH]; intros u; [done|].
  change (String c s1 +:+ s2) with (String c (s1 +:+ s2)). simpl. apply IH.
Qed.

Lemma rev_snoc (s : string) (c : ascii) :
  String.rev (s +:+ String c "") = String c (String.rev s).
Proof. unfold String.rev. by rewrite rev_app_app. Qed.

Lemma lstrip_with_app (p : ascii → bool) (s t : string) :
  PyStr.lstrip_with p (s +:+ t)
  = match PyStr.lstrip_with p s with
    | EmptyString => PyStr.lstrip_with p t
    | r => r +:+ t
    end.
Proof.
  induction s as [|c s IH]; [done|].
  change (String c s +:+ t) with (String c (s +:+ t)). simpl.
  by destruct (p c).
Qed.

(** Stripping also removes one more stripped character at each end. *)
Lemma strip_with_wrap (p : ascii → bool) (q : ascii) (s : string) :
  p q = true →
  PyStr.strip_with p (String q (s +:+ String q "")) = PyStr.strip_with p s.
Proof.
  intros Hq. unfold PyStr.strip_with. simpl. rewrite Hq, lstrip_with_app.
  destruct (PyStr.lstrip_with p s) as [|c r] eqn:Hs.
  - simpl. by rewrite Hq.
  - rewrite rev_snoc. simpl. by rewrite Hq.
Qed.

Lemma split_once_app (c : ascii) (k r : string) :
  PyStr.contains_char c k = false →
  PyStr.split_once c (k +:+ String c r) = (k, Some r).
Proof.
  induction k as [|d k IH]; simpl.
  - intros _. change ("" +:+ String c r) with (String c r). simpl.
    by rewrite decide_True.
  - change (String d k +:+ String c r) with (String d (k +:+ String c r)). simpl.
    destruct (decide (c = d)) as [|Hcd]; [done|]. intros Hk.
    rewrite decide_False by done. by rewrite IH.
Qed.

Lemma contains_char_app_sep (c : ascii) (k r : string) :
  PyStr.contains_char c (k +:+ String c r) = true.
Proof.
  induction k as [|d k IH].
  - change ("" +:+ String c r) with (String c r). simpl. by rewrite decide_True.
  - change (String d k +:+ String c r) with (String d (k +:+ String c r)). simpl.
    by destruct (decide (c = d)).
Qed.

(** X24. Double quotes around a value are optional: a descriptor line
    [key="value"] and the line [key=value] in its place give the Detector
    the same result, for a key without an equals sign and lines without
    surrounding white space. *)
Theorem quotes_around_value_are_optional (w : World) (before after : list string)
    (key value : string) :
  let plain := key +:+ String "=" value in
  let quoted := key +:+ String "=" (String "034" (value +:+ String "034" "")) in
  PyStr.contains_char "=" key = false →
  PyStr.strip plain = plain → PyStr.strip quoted = quoted →
  (get_system_info (set_host (with_os_release (Ret (before ++ quoted :: after)) (host w)) w)).2
  = (get_system_info (set_host (with_os_release (Ret (before ++ plain :: after)) (host w)) w)).2.
Proof.
  intros plain quoted Hkey Hplain Hquoted. apply get_system_info_dict.
  rewrite !os_release_dict_app. destruct (os_release_dict before ∅) as [d|]; [|done].
  simpl. subst plain quoted.
  rewrite !contains_char_app_sep, Hplain, Hquoted, !split_once_app by done.
  unfold PyStr.strip_chars, dquote. by rewrite strip_with_wrap.
Qed.

Lemma quotes_around_value_are_optional_witness :
  (get_system_info
     (set_host (with_os_release
                  (Ret (["ID=ubuntu"]
                        ++ [("VERSION_ID"
                             +:+ String "=" (String "034" ("22.04" +:+ String "034" "")))]))
                  ubuntu_host) (world_of ubuntu_host []))).2
  = (get_system_info
       (set_host (with_os_release
                    (Ret (["ID=ubuntu"] ++ [("VERSION_ID" +:+ String "=" "22.04")]))
                    ubuntu_host) (world_of ubuntu_host []))).2.
Proof.
  apply (quotes_around_value_are_optional (world_of ubuntu_host []) ["ID=ubuntu"] []
           "VERSION_ID" "22.04"); reflexivity.
Defined.

(** ** Where the artifact is saved *)


